(** * Personal finance tracker: model of [app.py] and its properties

    The development follows the layout of the program:
    - the [Transaction] class hierarchy ([Income], [Expense]);
    - [FinanceTracker], whose ledger lives in Streamlit's session state;
    - the pandas frame built by [to_dataframe] and the reductions over it;
    - [ReportGenerator.generate_report];
    - the module-level Streamlit script, one run per user interaction.

    Two readings of the amounts are kept apart.  The first part takes them
    as exact rationals ([Qc]); the rendering of a number inside an f-string
    is a parameter [fmt] of the sections that print.  Module [Numeric]
    repeats the arithmetic lines over an arbitrary type of numbers on whose
    operations nothing is assumed, and module [Float64] instantiates it
    with binary64 floats; statements that must not depend on exact
    arithmetic are made there. *)

From Stdlib Require Import QArith Qcanon PrimFloat.
From stdpp Require Import base numbers list strings pretty gmap fin_maps.


Local Open Scope Qc_scope.

(** ** Exceptions and the exception monad *)

Inductive exn :=
| ValueError (msg : string)
| KeyError (key : string)
| AttributeError (name : string).

(** [str(e)] for an exception with one argument. *)
Definition str_exn (e : exn) : string :=
  match e with
  | ValueError msg => msg
  | KeyError key => "'" +:+ key +:+ "'"
  | AttributeError name => name
  end.

Definition result (A : Type) : Type := exn + A.

Definition ok {A} (a : A) : result A := inr a.
Definition raise {A} (e : exn) : result A := inl e.

Global Instance result_ret : MRet result := fun A a => inr a.
Global Instance result_bind : MBind result := fun A B k r =>
  match r with
  | inl e => inl e
  | inr a => k a
  end.

(** ** Dates *)

Record date := Date { year : nat; month : nat; day : nat }.

Record datetime := DateTime { dt_date : date; hour : nat; minute : nat }.

(** ** The Transaction hierarchy *)

(** The two concrete subclasses of the abstract base class. *)
Inductive class := IncomeClass | ExpenseClass.

Record Transaction := mkTransaction {
  __class__ : class;
  _date : date;
  _category : string;
  _amount : Qc
}.

(** [Transaction.__init__]: three assignments, no check, no raise. *)
Definition Transaction__init__ (cls : class) (date0 : date) (category : string)
    (amount : Qc) : result Transaction :=
  ok {| __class__ := cls; _date := date0; _category := category;
        _amount := amount |}.

Module Income.
Definition new (date0 : date) (category : string) (amount : Qc)
  : result Transaction :=
  Transaction__init__ IncomeClass date0 category amount.
Definition apply (self : Transaction) : Qc := _amount self.
Definition get_type (self : Transaction) : string := "Income".
End Income.

Module Expense.
Definition new (date0 : date) (category : string) (amount : Qc)
  : result Transaction :=
  Transaction__init__ ExpenseClass date0 category amount.
Definition apply (self : Transaction) : Qc := - _amount self.
Definition get_type (self : Transaction) : string := "Expense".
End Expense.

(** Method dispatch on the class of the receiver. *)
Definition apply (t : Transaction) : Qc :=
  match __class__ t with
  | IncomeClass => Income.apply t
  | ExpenseClass => Expense.apply t
  end.

Definition get_type (t : Transaction) : string :=
  match __class__ t with
  | IncomeClass => Income.get_type t
  | ExpenseClass => Expense.get_type t
  end.

(** ** The pandas frame *)

(** One record of the list handed to [pd.DataFrame]: the four keys of the
    dictionary built in [to_dataframe]. *)
Record Row := mkRow {
  row_date : date;
  row_t_type : string;
  row_category : string;
  row_amount : Qc
}.

(** A frame: its column labels and its rows, in index order. *)
Record DataFrame := mkDataFrame {
  columns : list string;
  rows : list Row
}.

(** [pd.DataFrame(records)]: the columns are the keys of the records, so a
    frame built from no record has no column at all. *)
Definition record_keys : list string :=
  ["date"; "t_type"; "category"; "amount"].

Definition pd_DataFrame (records : list Row) : DataFrame :=
  match records with
  | [] => {| columns := []; rows := [] |}
  | _ :: _ => {| columns := record_keys; rows := records |}
  end.

(** [df.empty]: some axis has length zero. *)
Definition DataFrame_empty (df : DataFrame) : bool :=
  bool_decide (columns df = []) || bool_decide (rows df = []).

(** [df[key]]: the values of one column, or [KeyError] when the frame has
    no column of that label. *)
Definition getitem {A} (df : DataFrame) (key : string) (field : Row -> A)
  : result (list A) :=
  if decide (key ∈ columns df) then ok (field <$> rows df)
  else raise (KeyError key).

(** [series == value]: the boolean mask. *)
Definition series_eq (s : list string) (value : string) : list bool :=
  (fun x => bool_decide (x = value)) <$> s.

(** [df[mask]]: the rows whose mask entry is true; the columns stay. *)
Fixpoint select (mask : list bool) (rs : list Row) : list Row :=
  match mask, rs with
  | b :: mask', r :: rs' => if b then r :: select mask' rs' else select mask' rs'
  | _, _ => []
  end.

Definition getitem_mask (df : DataFrame) (mask : list bool) : DataFrame :=
  {| columns := columns df; rows := select mask (rows df) |}.

(** [series.sum()]: accumulation from zero; zero on the empty series. *)
Definition Series_sum (s : list Qc) : Qc := fold_left Qcplus s 0.

(** The accumulation step of [groupby_sum]. *)
Definition group_step (by_field : Row -> string) (field : Row -> Qc)
    (m : gmap string Qc) (r : Row) : gmap string Qc :=
  <[by_field r := default 0 (m !! by_field r) + field r]> m.

(** [df.groupby(by)[key].sum()]: one entry per value of the grouping
    column that occurs, holding the sum of the selected column over the
    rows of that group. *)
Definition groupby_sum (df : DataFrame) (by_key : string) (by_field : Row -> string)
    (key : string) (field : Row -> Qc) : result (gmap string Qc) :=
  if decide (by_key ∈ columns df) then
    if decide (key ∈ columns df) then
      ok (fold_left (group_step by_field field) (rows df) ∅)
    else raise (KeyError key)
  else raise (KeyError by_key).

(** The record built for one transaction in [to_dataframe], and the frame
    of a list of transactions. *)
Definition to_row (t : Transaction) : Row :=
  {| row_date := _date t; row_t_type := get_type t;
     row_category := _category t; row_amount := _amount t |}.

Definition frame_of (data : list Transaction) : DataFrame :=
  pd_DataFrame (to_row <$> data).

(** The selection [df[df["t_type"] == label]["amount"].sum()] that both the
    report generator and the page evaluate. *)
Definition amount_sum_of_type (df : DataFrame) (label : string) : result Qc :=
  types ← getitem df "t_type" row_t_type;
  amounts ← getitem (getitem_mask df (series_eq types label)) "amount" row_amount;
  mret (Series_sum amounts).

(** ** Session state and FinanceTracker *)

(** [st.session_state]: a dictionary; the program only uses the key
    ["data"], bound to the list of transactions. *)
Abbreviation session_state := (gmap string (list Transaction)).

(** [st.session_state.data] *)
Definition session_data (ss : session_state) : result (list Transaction) :=
  match ss !! "data" with
  | Some l => ok l
  | None => raise (AttributeError "data")
  end.

Module FinanceTracker.

(** [__init__]: bind ["data"] to the empty list unless it is bound. *)
Definition __init__ (ss : session_state) : session_state :=
  match ss !! "data" with
  | Some _ => ss
  | None => <["data" := []]> ss
  end.

(** [add_transaction]: the guard, then [list.append].  The second
    component is the session state after the call. *)
Definition add_transaction (transaction : Transaction) (ss : session_state)
  : result unit * session_state :=
  if decide (_amount transaction ≤ 0) then
    (raise (ValueError "Amount must be positive"), ss)
  else
    match session_data ss with
    | inr l => (ok (), <["data" := l ++ [transaction]]> ss)
    | inl e => (inl e, ss)
    end.

Definition to_dataframe (ss : session_state) : result DataFrame :=
  data ← session_data ss;
  mret (frame_of data).

End FinanceTracker.

(** The ledger held by a session state (empty when ["data"] is unbound). *)
Definition ledger (ss : session_state) : list Transaction :=
  default [] (ss !! "data").

(** ** ReportGenerator *)

(** [strftime('%d-%m-%Y %H:%M')]: day, month, hour and minute are padded
    to two digits; the year is printed as it is. *)
Definition pad (width n : nat) : string :=
  let s := pretty n in
  String.concat "" (replicate (width - String.length s) "0") +:+ s.

Definition strftime (now : datetime) : string :=
  pad 2 (day (dt_date now)) +:+ "-" +:+ pad 2 (month (dt_date now)) +:+ "-" +:+
  pretty (year (dt_date now)) +:+ " " +:+ pad 2 (hour now) +:+ ":" +:+
  pad 2 (minute now).

Module ReportGenerator.
Section Report.
Variable fmt : Qc -> string.

(** The three figures of lines 77-79. *)
Definition totals (df : DataFrame) : result (Qc * Qc * Qc) :=
  income ← amount_sum_of_type df "Income";
  expense ← amount_sum_of_type df "Expense";
  let balance := income - expense in
  mret (income, expense, balance).

(** The f-string of lines 81-88. *)
Definition render (income expense balance : Qc) (now : datetime) : string :=
  "PERSONAL FINANCE REPORT
------------------------
Total Income  : ₹ " +:+ fmt income +:+ "
Total Expense : ₹ " +:+ fmt expense +:+ "
Savings/Loss  : ₹ " +:+ fmt balance +:+ "

Generated on  : " +:+ strftime now +:+ "
".

Definition generate_report (now : datetime) (df : DataFrame) : result string :=
  '(income, expense, balance) ← totals df;
  mret (render income expense balance now).

End Report.
End ReportGenerator.

(** ** The Streamlit script *)

(** What a run draws on the page. *)
Inductive figure :=
| bar (labels : list string) (heights : list Qc)
| pie (wedges : gmap string Qc).

Inductive element :=
| title (body : string)
| header (body : string)
| subheader (body : string)
| success (body : string)
| error (body : string)
| info (body : string)
| dataframe (df : DataFrame)
| metric (label value : string)
| pyplot (fig : figure)
| text (body : string)
| download_button (label data file_name mime : string).

(** The values the input widgets return in one run, and the clock. *)
Record inputs := mkInputs {
  date_input : date;
  type_selectbox : string;
  category_selectbox : string;
  number_input : Qc;
  button_Add : bool;
  datetime_now : datetime
}.

(** A run threads the session state and the page drawn so far, and may stop
    on an exception. *)
Record world := mkWorld {
  state : session_state;
  page : list element
}.

Definition App (A : Type) : Type := world -> result A * world.

Global Instance App_ret : MRet App := fun A a w => (inr a, w).
Global Instance App_bind : MBind App := fun A B k m w =>
  match m w with
  | (inl e, w') => (inl e, w')
  | (inr a, w') => k a w'
  end.

Definition emit (e : element) : App unit := fun w =>
  (inr (), {| state := state w; page := page w ++ [e] |}).

Definition lift {A} (r : result A) : App A := fun w => (r, w).

(** A call that reads and writes the session state only. *)
Definition on_state {A} (f : session_state -> result A * session_state) : App A :=
  fun w => let '(r, ss) := f (state w) in (r, {| state := ss; page := page w |}).

(** [try: body except ValueError as e: handler] *)
Definition try_except_ValueError {A} (body : App A) (handler : exn -> App A)
  : App A := fun w =>
  match body w with
  | (inl (ValueError msg), w') => handler (ValueError msg) w'
  | other => other
  end.

Section Script.
Variable fmt : Qc -> string.

(** Lines 98-115: the sidebar form. *)
Definition sidebar (inp : inputs) : App unit :=
  emit (header "➕ Add Transaction");;
  if button_Add inp then
    try_except_ValueError
      (txn ← lift (if decide (type_selectbox inp = "Income")
                   then Income.new (date_input inp) (category_selectbox inp)
                                   (number_input inp)
                   else Expense.new (date_input inp) (category_selectbox inp)
                                    (number_input inp));
       on_state (FinanceTracker.add_transaction txn);;
       emit (success "Transaction Added"))
      (fun e => emit (error (str_exn e)))
  else mret ().

(** Lines 123-125: the three figures shown as metrics. *)
Definition page_totals (df : DataFrame) : result (Qc * Qc * Qc) :=
  income ← amount_sum_of_type df "Income";
  expense ← amount_sum_of_type df "Expense";
  let balance := income - expense in
  mret (income, expense, balance).

(** Line 146: the expense rows. *)
Definition expense_rows (df : DataFrame) : result DataFrame :=
  types ← getitem df "t_type" row_t_type;
  mret (getitem_mask df (series_eq types "Expense")).

(** Line 149: the sums the pie chart is drawn from. *)
Definition category_sums (exp_df : DataFrame) : result (gmap string Qc) :=
  groupby_sum exp_df "category" row_category "amount" row_amount.

(** Lines 119-163: what is drawn for a frame that is not empty. *)
Definition dashboard (inp : inputs) (df : DataFrame) : App unit :=
  emit (subheader "📋 Transactions");;
  emit (dataframe df);;
  '(income, expense, balance) ← lift (page_totals df);
  emit (metric "Total Income" ("₹ " +:+ fmt income));;
  emit (metric "Total Expense" ("₹ " +:+ fmt expense));;
  emit (metric "Savings" ("₹ " +:+ fmt balance));;
  (if decide (income < expense)
   then emit (error "⚠️ Warning: Expenses exceed Income!")
   else mret ());;
  emit (subheader "📊 Analysis");;
  emit (pyplot (bar ["Income"; "Expense"] [income; expense]));;
  exp_df ← lift (expense_rows df);
  (if negb (DataFrame_empty exp_df) then
     wedges ← lift (category_sums exp_df);
     emit (pyplot (pie wedges))
   else mret ());;
  emit (subheader "📄 Generate Report");;
  report_text ← lift (ReportGenerator.generate_report fmt (datetime_now inp) df);
  emit (text report_text);;
  emit (download_button "⬇️ Download Report" report_text
                        "Finance_Report.txt" "text/plain").

(** One run of the module-level code. *)
Definition script (inp : inputs) : App unit :=
  emit (title "Personal Finance Tracker");;
  on_state (fun ss => (ok (), FinanceTracker.__init__ ss));;
  sidebar inp;;
  df ← on_state (fun ss => (FinanceTracker.to_dataframe ss, ss));
  if negb (DataFrame_empty df) then dashboard inp df
  else emit (info "No transactions added yet.").

(** A run starts on a blank page. *)
Definition run (inp : inputs) (ss : session_state) : result unit * world :=
  script inp {| state := ss; page := [] |}.

End Script.

(** One user interaction: a rerun of the script on the session state the
    previous run left. *)
Definition step (ss ss' : session_state) : Prop :=
  ∃ fmt inp, state (run fmt inp ss).2 = ss'.

(** The states of a session: it starts with an empty dictionary. *)
Definition reachable (ss : session_state) : Prop := rtc step ∅ ss.

(** Every stored transaction has a positive amount. *)
Definition ledger_positive (ss : session_state) : Prop :=
  Forall (fun t => 0 < _amount t) (ledger ss).

(** ** The aggregates as the specification words them *)

(** The table of a sequence of transactions: the four columns, one row per
    transaction.  For a ledger that holds a transaction it is the frame
    [to_dataframe] builds (lemma [frame_of_cons]). *)
Definition table (data : list Transaction) : DataFrame :=
  {| columns := record_keys; rows := to_row <$> data |}.

Definition Qc_sum (l : list Qc) : Qc := foldr Qcplus 0 l.

(** Sum of [amount] over the transactions whose kind label is [label]. *)
Definition total_of_kind (label : string) (data : list Transaction) : Qc :=
  Qc_sum (_amount <$> filter (fun t => get_type t = label) data).

Definition totalIncome (data : list Transaction) : Qc :=
  total_of_kind "Income" data.

Definition totalExpense (data : list Transaction) : Qc :=
  total_of_kind "Expense" data.

(** The Expense transactions of one category. *)
Definition expenses_in (category : string) (data : list Transaction)
  : list Transaction :=
  filter (fun t => get_type t = "Expense" ∧ _category t = category) data.

(** Sum of the values of a mapping. *)
Definition values_sum (m : gmap string Qc) : Qc :=
  map_fold (fun _ v acc => v + acc) 0 m.

(** [s] occurs in [t]. *)
Definition occurs_in (s t : string) : Prop :=
  ∃ before after, t = before +:+ s +:+ after.

(** ** The arithmetic lines over the program's own numbers *)

(** The amounts of the program are what the caller passes: Python floats
    from the Amount widget, held by pandas in a float64 column (an int64
    column for integer amounts).  This module holds the same lines of
    [app.py] over an arbitrary type [num], with the comparison [x <= 0],
    the subtraction and the two library sums as parameters on which
    nothing is assumed. *)
Module Numeric.
Section Numbers.
Variable num : Type.
(** [x <= 0] *)
Variable le0 : num -> bool.
(** [x - y] *)
Variable sub : num -> num -> num.
(** [Series.sum()] of a column, given in index order. *)
Variable Series_sum : list num -> num.
(** The sum [groupby(...).sum()] computes for one group, given in index
    order. *)
Variable group_sum : list num -> num.

Record Transaction := mkTransaction {
  __class__ : class;
  _date : date;
  _category : string;
  _amount : num
}.

Definition get_type (t : Transaction) : string :=
  match __class__ t with
  | IncomeClass => "Income"
  | ExpenseClass => "Expense"
  end.

Record Row := mkRow {
  row_date : date;
  row_t_type : string;
  row_category : string;
  row_amount : num
}.

Record DataFrame := mkDataFrame {
  columns : list string;
  rows : list Row
}.

Definition pd_DataFrame (records : list Row) : DataFrame :=
  match records with
  | [] => {| columns := []; rows := [] |}
  | _ :: _ => {| columns := record_keys; rows := records |}
  end.

Definition getitem {A} (df : DataFrame) (key : string) (field : Row -> A)
  : result (list A) :=
  if decide (key ∈ columns df) then ok (field <$> rows df)
  else raise (KeyError key).

Fixpoint select (mask : list bool) (rs : list Row) : list Row :=
  match mask, rs with
  | b :: mask', r :: rs' => if b then r :: select mask' rs' else select mask' rs'
  | _, _ => []
  end.

Definition getitem_mask (df : DataFrame) (mask : list bool) : DataFrame :=
  {| columns := columns df; rows := select mask (rows df) |}.

Definition to_row (t : Transaction) : Row :=
  {| row_date := _date t; row_t_type := get_type t;
     row_category := _category t; row_amount := _amount t |}.

Definition frame_of (data : list Transaction) : DataFrame :=
  pd_DataFrame (to_row <$> data).

(** [df[df["t_type"] == label]["amount"].sum()] *)
Definition amount_sum_of_type (df : DataFrame) (label : string) : result num :=
  types ← getitem df "t_type" row_t_type;
  amounts ← getitem (getitem_mask df (series_eq types label)) "amount" row_amount;
  mret (Series_sum amounts).

(** Lines 77-79. *)
Definition totals (df : DataFrame) : result (num * num * num) :=
  income ← amount_sum_of_type df "Income";
  expense ← amount_sum_of_type df "Expense";
  let balance := sub income expense in
  mret (income, expense, balance).

(** Lines 123-125. *)
Definition page_totals (df : DataFrame) : result (num * num * num) :=
  income ← amount_sum_of_type df "Income";
  expense ← amount_sum_of_type df "Expense";
  let balance := sub income expense in
  mret (income, expense, balance).

(** Line 146. *)
Definition expense_rows (df : DataFrame) : result DataFrame :=
  types ← getitem df "t_type" row_t_type;
  mret (getitem_mask df (series_eq types "Expense")).

(** The groups of [df.groupby(by)[key]]: for each value of the grouping
    column that occurs, the values of the selected column over the rows of
    the group, in index order. *)
Definition group_rows (by_field : Row -> string) (field : Row -> num)
    (rs : list Row) : gmap string (list num) :=
  fold_left (fun (g : gmap string (list num)) r =>
               <[by_field r := default [] (g !! by_field r) ++ [field r]]> g)
            rs ∅.

Definition groupby_sum (df : DataFrame) (by_key : string)
    (by_field : Row -> string) (key : string) (field : Row -> num)
  : result (gmap string num) :=
  if decide (by_key ∈ columns df) then
    if decide (key ∈ columns df) then
      ok (group_sum <$> group_rows by_field field (rows df))
    else raise (KeyError key)
  else raise (KeyError by_key).

(** Line 149. *)
Definition category_sums (exp_df : DataFrame) : result (gmap string num) :=
  groupby_sum exp_df "category" row_category "amount" row_amount.

(** [FinanceTracker.__init__] *)
Definition __init__ (ss : gmap string (list Transaction))
  : gmap string (list Transaction) :=
  match ss !! "data" with
  | Some _ => ss
  | None => <["data" := []]> ss
  end.

(** [FinanceTracker.add_transaction] *)
Definition add_transaction (transaction : Transaction)
    (ss : gmap string (list Transaction))
  : result unit * gmap string (list Transaction) :=
  if le0 (_amount transaction) then
    (raise (ValueError "Amount must be positive"), ss)
  else
    match ss !! "data" with
    | Some l => (ok (), <["data" := l ++ [transaction]]> ss)
    | None => (raise (AttributeError "data"), ss)
    end.

Definition ledger (ss : gmap string (list Transaction)) : list Transaction :=
  default [] (ss !! "data").

(** The amounts of the transactions of a ledger that carry a type label,
    in ledger order, and those of the Expense transactions of a category. *)
Definition amounts_of (label : string) (data : list Transaction) : list num :=
  _amount <$> filter (fun t => get_type t = label) data.

Definition expense_amounts_in (category : string) (data : list Transaction)
  : list num :=
  _amount <$> filter (fun t => get_type t = "Expense" ∧ _category t = category)
                data.

(** The frame with the four columns and one row per transaction. *)
Definition table (data : list Transaction) : DataFrame :=
  {| columns := record_keys; rows := to_row <$> data |}.

(** No stored amount satisfies [amount <= 0]. *)
Definition passed_guard (ss : gmap string (list Transaction)) : Prop :=
  Forall (fun t => le0 (_amount t) = false) (ledger ss).

End Numbers.

Arguments mkTransaction {num}.
Arguments __class__ {num}.
Arguments _date {num}.
Arguments _category {num}.
Arguments _amount {num}.
Arguments get_type {num}.
Arguments mkRow {num}.
Arguments row_date {num}.
Arguments row_t_type {num}.
Arguments row_category {num}.
Arguments row_amount {num}.
Arguments mkDataFrame {num}.
Arguments columns {num}.
Arguments rows {num}.
Arguments pd_DataFrame {num}.
Arguments getitem {num A}.
Arguments select {num}.
Arguments getitem_mask {num}.
Arguments to_row {num}.
Arguments frame_of {num}.
Arguments amount_sum_of_type {num}.
Arguments totals {num}.
Arguments page_totals {num}.
Arguments expense_rows {num}.
Arguments group_rows {num}.
Arguments groupby_sum {num}.
Arguments category_sums {num}.
Arguments __init__ {num}.
Arguments add_transaction {num}.
Arguments ledger {num}.
Arguments amounts_of {num}.
Arguments expense_amounts_in {num}.
Arguments table {num}.
Arguments passed_guard {num}.

End Numeric.

(** ** Binary64 amounts *)

(** The operations of Python floats and of a float64 column.  The two sums
    accumulate from zero in index order, which is what the library sums
    return on the short columns of the examples below. *)
Module Float64.

Definition le0 (x : float) : bool := PrimFloat.leb x 0%float.

Definition sub (x y : float) : float := PrimFloat.sub x y.

Definition Series_sum (s : list float) : float :=
  fold_left PrimFloat.add s 0%float.

Definition group_sum (s : list float) : float :=
  fold_left PrimFloat.add s 0%float.

(** [x == y] *)
Definition eqb (x y : float) : bool := PrimFloat.eqb x y.

(** [x > 0] *)
Definition gt0 (x : float) : bool := PrimFloat.ltb 0%float x.

(** [sum(m.values())]: accumulation from zero over the values. *)
Definition values_sum (m : gmap string float) : float :=
  map_fold (fun _ v acc => PrimFloat.add acc v) 0%float m.

End Float64.

(** ** Descriptions used in the statements *)

(** Computations that only draw. *)
Definition keeps_state {A} (m : App A) : Prop :=
  ∀ w, state (m w).2 = state w.

(** The transaction the form builds from the widgets. *)
Definition submitted (inp : inputs) : Transaction :=
  {| __class__ := if decide (type_selectbox inp = "Income")
                  then IncomeClass else ExpenseClass;
     _date := date_input inp;
     _category := category_selectbox inp;
     _amount := number_input inp |}.

(** The message the form shows. *)
Definition form_message (inp : inputs) : list element :=
  if button_Add inp then
    if decide (number_input inp ≤ 0)
    then [error "Amount must be positive"]
    else [success "Transaction Added"]
  else [].

(** The ledger after the form has been handled. *)
Definition ledger_after (inp : inputs) (l : list Transaction)
  : list Transaction :=
  if button_Add inp then
    if decide (number_input inp ≤ 0) then l else l ++ [submitted inp]
  else l.

(** The rows of one group. *)
Definition group_of (by_field : Row → string) (c : string) (rs : list Row)
  : list Row :=
  filter (fun r => by_field r = c) rs.

(** The elements drawn below the form for a ledger that is not empty. *)
Definition dashboard_page (fmt : Qc → string) (now : datetime)
    (data : list Transaction)
  : list element :=
  let income := totalIncome data in
  let expense := totalExpense data in
  let balance := income - expense in
  let exps := filter (fun t => get_type t = "Expense") data in
  let report_text := ReportGenerator.render fmt income expense balance now in
  [ subheader "📋 Transactions"; dataframe (table data);
    metric "Total Income" ("₹ " +:+ fmt income);
    metric "Total Expense" ("₹ " +:+ fmt expense);
    metric "Savings" ("₹ " +:+ fmt balance) ]
  ++ (if decide (income < expense)
      then [error "⚠️ Warning: Expenses exceed Income!"] else [])
  ++ [ subheader "📊 Analysis";
       pyplot (bar ["Income"; "Expense"] [income; expense]) ]
  ++ match exps with
     | [] => []
     | _ :: _ => [pyplot (pie (fold_left (group_step row_category row_amount)
                                         (to_row <$> exps) ∅))]
     end
  ++ [ subheader "📄 Generate Report"; text report_text;
       download_button "⬇️ Download Report" report_text
                       "Finance_Report.txt" "text/plain" ].

(** The ledger of the specification's worked scenario. *)
Definition scenario : list Transaction :=
  [ mkTransaction IncomeClass (Date 2024 1 1) "Salary" (Qc_of_Z 50000);
    mkTransaction IncomeClass (Date 2024 1 5) "Salary" (Qc_of_Z 2000);
    mkTransaction ExpenseClass (Date 2024 1 10) "Rent" (Qc_of_Z 15000);
    mkTransaction ExpenseClass (Date 2024 1 12) "Food" (Qc_of_Z 3000) ].

(** A number format used in the examples: numerator, slash, denominator. *)
Definition fraction (q : Qc) : string :=
  pretty (Qnum q) +:+ "/" +:+ pretty (Zpos (Qden q)).

(** The page of a run that leaves the ledger [l']. *)
Definition run_page (fmt : Qc → string) (inp : inputs) (l' : list Transaction)
  : list element :=
  [title "Personal Finance Tracker"; header "➕ Add Transaction"]
  ++ form_message inp
  ++ match l' with
     | [] => [info "No transactions added yet."]
     | _ :: _ => dashboard_page fmt (datetime_now inp) l'
     end.

(** Sum of the amount column over the rows of a frame that carry a label. *)
Definition rows_total (label : string) (rs : list Row) : Qc :=
  Qc_sum (row_amount <$> filter (fun r => row_t_type r = label) rs).

(** The warning of line 133. *)
Definition warning : element := error "⚠️ Warning: Expenses exceed Income!".

(** * Properties *)

(** ** The transaction classes *)

(** C8: an object of class Income answers [apply] with its amount and
    [get_type] with ["Income"]; an object of class Expense answers [apply]
    with the opposite of its amount and [get_type] with ["Expense"]. *)
Theorem apply_get_type_by_class (t : Transaction) :
  match __class__ t with
  | IncomeClass => apply t = _amount t ∧ get_type t = "Income"
  | ExpenseClass => apply t = - _amount t ∧ get_type t = "Expense"
  end.
Proof. destruct t as [[] d c a]; split; reflexivity. Qed.

(** C1, as claimed, fails: building an Expense with amount zero raises
    nothing and yields an object whose amount is not positive. *)
Lemma construction_accepts_zero :
  Expense.new (Date 2024 1 1) "Food" 0
    = ok (mkTransaction ExpenseClass (Date 2024 1 1) "Food" 0)
  ∧ _amount (mkTransaction ExpenseClass (Date 2024 1 1) "Food" 0) ≤ 0
  ∧ ¬ ∃ e, Expense.new (Date 2024 1 1) "Food" 0 = raise e.
Proof.
  split; [reflexivity|]. split; [apply Qcle_refl|].
  intros [e He]. discriminate He.
Qed.

(** C1, amended: for an amount that is not positive, both constructors
    succeed and return an object holding the date, category and amount
    given; the check is made by [add_transaction], which rejects that
    object with [ValueError] and leaves the session state as it was. *)
Theorem construction_unchecked (d : date) (c : string) (a : Qc)
    (ss : session_state) :
  a ≤ 0 →
  ∃ ti te,
    Income.new d c a = ok ti ∧ Expense.new d c a = ok te
    ∧ ti = mkTransaction IncomeClass d c a
    ∧ te = mkTransaction ExpenseClass d c a
    ∧ FinanceTracker.add_transaction ti ss
        = (raise (ValueError "Amount must be positive"), ss)
    ∧ FinanceTracker.add_transaction te ss
        = (raise (ValueError "Amount must be positive"), ss).
Proof.
  intros Ha. do 2 eexists. do 4 (split; [reflexivity|]).
  unfold FinanceTracker.add_transaction; simpl.
  destruct (decide (a ≤ 0)); [split; reflexivity | contradiction].
Qed.

Lemma construction_unchecked_witness :
  ∃ ti te,
    Income.new (Date 2024 1 1) "Salary" (- 1) = ok ti
    ∧ Expense.new (Date 2024 1 1) "Salary" (- 1) = ok te
    ∧ ti = mkTransaction IncomeClass (Date 2024 1 1) "Salary" (- 1)
    ∧ te = mkTransaction ExpenseClass (Date 2024 1 1) "Salary" (- 1)
    ∧ FinanceTracker.add_transaction ti ∅
        = (raise (ValueError "Amount must be positive"), ∅)
    ∧ FinanceTracker.add_transaction te ∅
        = (raise (ValueError "Amount must be positive"), ∅).
Proof.
  apply (construction_unchecked (Date 2024 1 1) "Salary" (- 1) ∅).
  vm_compute. discriminate.
Defined.

(** ** The ledger *)

Lemma ledger_lookup (ss : session_state) (l : list Transaction) :
  ss !! "data" = Some l → ledger ss = l.
Proof. unfold ledger. intros ->. reflexivity. Qed.

Lemma ledger_insert (ss : session_state) (l : list Transaction) :
  ledger (<["data" := l]> ss) = l.
Proof. unfold ledger. rewrite lookup_insert_eq. reflexivity. Qed.

(** A call of [add_transaction] leaves the ledger alone or puts the
    transaction, whose amount is then positive, at its end. *)
Lemma ledger_add_transaction (t : Transaction) (ss : session_state) :
  ledger (FinanceTracker.add_transaction t ss).2 = ledger ss
  ∨ (0 < _amount t
     ∧ ledger (FinanceTracker.add_transaction t ss).2 = ledger ss ++ [t]).
Proof.
  unfold FinanceTracker.add_transaction, session_data.
  destruct (decide (_amount t ≤ 0)) as [|Hpos]; [left; reflexivity|].
  destruct (ss !! "data") as [l|] eqn:E; [|left; reflexivity].
  right. split; [apply Qcnot_le_lt; exact Hpos|].
  simpl. rewrite ledger_insert. unfold ledger. rewrite E. reflexivity.
Qed.

(** C2: adding a transaction whose amount is not positive raises
    [ValueError] and returns the session state it was given, so the ledger
    has the same elements in the same order; and whatever the transaction,
    a call leaves the ledger as it was or with that transaction appended
    whole. *)
Theorem add_transaction_rejects (t : Transaction) (ss : session_state) :
  _amount t ≤ 0 →
  FinanceTracker.add_transaction t ss
    = (raise (ValueError "Amount must be positive"), ss)
  ∧ ledger (FinanceTracker.add_transaction t ss).2 = ledger ss
  ∧ ∀ t', ledger (FinanceTracker.add_transaction t' ss).2 = ledger ss
          ∨ ledger (FinanceTracker.add_transaction t' ss).2 = ledger ss ++ [t'].
Proof.
  intros Ht. split; [|split].
  - unfold FinanceTracker.add_transaction.
    destruct (decide (_amount t ≤ 0)); [reflexivity | contradiction].
  - unfold FinanceTracker.add_transaction.
    destruct (decide (_amount t ≤ 0)); [reflexivity | contradiction].
  - intros t'. destruct (ledger_add_transaction t' ss) as [H|[_ H]];
      [left | right]; exact H.
Qed.

Lemma add_transaction_rejects_witness :
  let t := mkTransaction ExpenseClass (Date 2024 1 1) "Food" 0 in
  let ss : session_state :=
    {[ "data" := [mkTransaction IncomeClass (Date 2024 1 1) "Salary" 1] ]} in
  FinanceTracker.add_transaction t ss
    = (raise (ValueError "Amount must be positive"), ss)
  ∧ ledger (FinanceTracker.add_transaction t ss).2 = ledger ss
  ∧ ∀ t', ledger (FinanceTracker.add_transaction t' ss).2 = ledger ss
          ∨ ledger (FinanceTracker.add_transaction t' ss).2 = ledger ss ++ [t'].
Proof.
  intros t ss. apply (add_transaction_rejects t ss). apply Qcle_refl.
Defined.

(** C3: on a session state that holds a ledger, adding a transaction whose
    amount is positive succeeds; the new ledger is the old one followed by
    the transaction: one longer, the transaction last, every earlier
    position unchanged. *)
Theorem add_transaction_appends (t : Transaction) (ss : session_state)
    (l : list Transaction) :
  ss !! "data" = Some l →
  0 < _amount t →
  let ss' := (FinanceTracker.add_transaction t ss).2 in
  FinanceTracker.add_transaction t ss = (ok (), <["data" := l ++ [t]]> ss)
  ∧ ledger ss' = l ++ [t]
  ∧ length (ledger ss') = S (length l)
  ∧ last (ledger ss') = Some t
  ∧ take (length l) (ledger ss') = l
  ∧ (∀ i x, l !! i = Some x → ledger ss' !! i = Some x).
Proof.
  intros Hl Ht ss'.
  assert (Hadd : FinanceTracker.add_transaction t ss
                 = (ok (), <["data" := l ++ [t]]> ss)).
  { unfold FinanceTracker.add_transaction, session_data.
    destruct (decide (_amount t ≤ 0)) as [Hle|_].
    - exfalso. exact (Qclt_not_le _ _ Ht Hle).
    - rewrite Hl. reflexivity. }
  assert (Hss' : ledger ss' = l ++ [t]).
  { unfold ss'. rewrite Hadd. apply ledger_insert. }
  split; [exact Hadd|]. split; [exact Hss'|]. rewrite Hss'.
  split; [rewrite length_app; simpl; lia|].
  split; [apply last_snoc|].
  split; [apply take_app_length|].
  intros i x Hi. apply lookup_app_l_Some. exact Hi.
Qed.

Lemma add_transaction_appends_witness :
  let t := mkTransaction ExpenseClass (Date 2024 1 10) "Rent" 1 in
  let l := [mkTransaction IncomeClass (Date 2024 1 1) "Salary" 1] in
  let ss : session_state := {[ "data" := l ]} in
  let ss' := (FinanceTracker.add_transaction t ss).2 in
  FinanceTracker.add_transaction t ss = (ok (), <["data" := l ++ [t]]> ss)
  ∧ ledger ss' = l ++ [t]
  ∧ length (ledger ss') = S (length l)
  ∧ last (ledger ss') = Some t
  ∧ take (length l) (ledger ss') = l
  ∧ (∀ i x, l !! i = Some x → ledger ss' !! i = Some x).
Proof.
  intros t l ss.
  apply (add_transaction_appends t ss l); [reflexivity | reflexivity].
Defined.

(** ** What a run does to the session state *)

Lemma keeps_state_ret {A} (a : A) : keeps_state (mret a : App A).
Proof. intros w. reflexivity. Qed.

Lemma keeps_state_emit (e : element) : keeps_state (emit e).
Proof. intros w. reflexivity. Qed.

Lemma keeps_state_lift {A} (r : result A) : keeps_state (lift r).
Proof. intros w. reflexivity. Qed.

Lemma keeps_state_bind {A B} (m : App A) (k : A → App B) :
  keeps_state m → (∀ a, keeps_state (k a)) → keeps_state (m ≫= k).
Proof.
  intros Hm Hk w. unfold mbind, App_bind.
  specialize (Hm w). destruct (m w) as [[e|a] w']; simpl in *.
  - exact Hm.
  - rewrite Hk. exact Hm.
Qed.

Create HintDb keeps discriminated.
#[local] Hint Resolve keeps_state_ret keeps_state_emit keeps_state_lift : keeps.

Ltac keeps_state :=
  repeat first
    [ apply keeps_state_bind; [|intros]
    | match goal with
      | |- keeps_state (let '(_, _) := ?p in _) => destruct p
      | |- keeps_state (if ?c then _ else _) => destruct c
      end
    | solve [auto with keeps] ].

Lemma dashboard_keeps_state fmt inp df : keeps_state (dashboard fmt inp df).
Proof. unfold dashboard. keeps_state. Qed.

Lemma sidebar_state inp w :
  state (sidebar inp w).2
  = if button_Add inp
    then (FinanceTracker.add_transaction (submitted inp) (state w)).2
    else state w.
Proof.
  unfold sidebar, submitted, try_except_ValueError, on_state, lift, emit,
    mbind, App_bind, mret, App_ret; simpl.
  destruct (button_Add inp); [|reflexivity].
  destruct (decide (type_selectbox inp = "Income")); simpl;
    (destruct (FinanceTracker.add_transaction _ (state w)) as [[[]|[]] ss'];
     reflexivity).
Qed.

Lemma script_state fmt inp ss :
  state (run fmt inp ss).2
  = if button_Add inp
    then (FinanceTracker.add_transaction (submitted inp)
            (FinanceTracker.__init__ ss)).2
    else FinanceTracker.__init__ ss.
Proof.
  unfold run, script.
  unfold mbind at 1, App_bind at 1; simpl.
  unfold mbind at 1, App_bind at 1; simpl.
  unfold mbind at 1, App_bind at 1.
  pose proof (sidebar_state inp
    {| state := FinanceTracker.__init__ ss;
       page := [title "Personal Finance Tracker"] |}) as Hs.
  simpl in Hs.
  destruct (sidebar inp _) as [[e|[]] w']; simpl in *; [exact Hs|].
  rewrite <- Hs.
  match goal with |- state (?m w').2 = _ =>
    assert (Hk : keeps_state m); [|apply Hk] end.
  apply keeps_state_bind.
  - intros w. unfold on_state. destruct (FinanceTracker.to_dataframe _); reflexivity.
  - intros df. destruct (negb _); [apply dashboard_keeps_state | apply keeps_state_emit].
Qed.

Lemma ledger_init (ss : session_state) :
  ledger (FinanceTracker.__init__ ss) = ledger ss.
Proof.
  unfold FinanceTracker.__init__, ledger.
  destruct (ss !! "data") eqn:E; [rewrite E; reflexivity|].
  rewrite lookup_insert_eq. reflexivity.
Qed.

Lemma ledger_step (ss ss' : session_state) :
  step ss ss' →
  ledger ss' = ledger ss
  ∨ ∃ t, 0 < _amount t ∧ ledger ss' = ledger ss ++ [t].
Proof.
  intros (fmt & inp & <-). rewrite script_state.
  destruct (button_Add inp).
  - destruct (ledger_add_transaction (submitted inp) (FinanceTracker.__init__ ss))
      as [H|[Hpos H]]; rewrite H, ledger_init; [left; reflexivity|].
    right. exists (submitted inp). split; [exact Hpos | reflexivity].
  - left. apply ledger_init.
Qed.

Lemma ledger_positive_snoc (ss ss' : session_state) (t : Transaction) :
  ledger_positive ss → 0 < _amount t → ledger ss' = ledger ss ++ [t] →
  ledger_positive ss'.
Proof.
  unfold ledger_positive. intros Hss Ht ->.
  apply Forall_app. split; [exact Hss|]. constructor; [exact Ht | constructor].
Qed.

(** With exact amounts: the ledger of a fresh session is empty and holds
    positive amounts only; [__init__], [add_transaction] and a whole run of
    the script keep that property; a run keeps the stored transactions as a
    prefix of the new ledger; hence every reachable session state holds
    positive amounts only.  (For float amounts see [nan_passes_the_guard]
    and [guard_invariant].) *)
Theorem ledger_invariant :
  (ledger ∅ = [] ∧ ledger_positive ∅)
  ∧ (∀ ss, ledger_positive ss → ledger_positive (FinanceTracker.__init__ ss))
  ∧ (∀ t ss, ledger_positive ss →
       ledger_positive (FinanceTracker.add_transaction t ss).2)
  ∧ (∀ ss ss', step ss ss' →
       ledger ss `prefix_of` ledger ss'
       ∧ (ledger_positive ss → ledger_positive ss'))
  ∧ (∀ ss, reachable ss → ledger_positive ss).
Proof.
  assert (Hstep : ∀ ss ss', step ss ss' → ledger_positive ss → ledger_positive ss').
  { intros ss ss' Hs Hss. destruct (ledger_step _ _ Hs) as [H|(t & Ht & H)].
    - unfold ledger_positive. rewrite H. exact Hss.
    - exact (ledger_positive_snoc _ _ _ Hss Ht H). }
  split; [split; [reflexivity | constructor]|].
  split.
  { intros ss Hss. unfold ledger_positive. rewrite ledger_init. exact Hss. }
  split.
  { intros t ss Hss. destruct (ledger_add_transaction t ss) as [H|[Ht H]].
    - unfold ledger_positive. rewrite H. exact Hss.
    - exact (ledger_positive_snoc _ _ _ Hss Ht H). }
  split.
  { intros ss ss' Hs. split; [|apply Hstep; exact Hs].
    destruct (ledger_step _ _ Hs) as [H|(t & _ & H)]; rewrite H.
    - reflexivity.
    - apply prefix_app_r. reflexivity. }
  unfold reachable. apply (rtc_ind_r ledger_positive).
  - constructor.
  - intros ss1 ss2 _ Hs IH. exact (Hstep _ _ Hs IH).
Qed.

Lemma ledger_invariant_witness :
  let inp := mkInputs (Date 2024 1 1) "Income" "Salary" (Qc_of_Z 50000) true
                      (DateTime (Date 2024 1 1) 9 30) in
  let ss := state (run (fun _ => "") inp ∅).2 in
  reachable ss ∧ ledger ss = [submitted inp] ∧ ledger_positive ss.
Proof.
  intros inp ss.
  assert (Hreach : reachable ss).
  { apply rtc_once. exists (fun _ => ""), inp. reflexivity. }
  split; [exact Hreach|]. split; [vm_compute; reflexivity|].
  exact (proj2 (proj2 (proj2 (proj2 ledger_invariant))) ss Hreach).
Defined.

(** ** Reductions over the frame of a ledger *)

Lemma Series_sum_acc (s : list Qc) (a : Qc) :
  fold_left Qcplus s a = a + Qc_sum s.
Proof.
  revert a. induction s as [|x s IH]; intros a; simpl.
  - symmetry. apply Qcplus_0_r.
  - rewrite IH. symmetry. apply Qcplus_assoc.
Qed.

Lemma Series_sum_Qc_sum (s : list Qc) : Series_sum s = Qc_sum s.
Proof. unfold Series_sum. rewrite Series_sum_acc. apply Qcplus_0_l. Qed.

(** Masking with [series == value] keeps the rows that carry the value. *)
Lemma select_series_eq (field : Row → string) (value : string) (rs : list Row) :
  select (series_eq (field <$> rs) value) rs
  = filter (fun r => field r = value) rs.
Proof.
  unfold series_eq.
  induction rs as [|r rs IH]; [reflexivity|].
  rewrite !fmap_cons, filter_cons. cbn [select]. rewrite IH.
  destruct (decide (field r = value)) as [E|E].
  - rewrite bool_decide_eq_true_2 by exact E. reflexivity.
  - rewrite bool_decide_eq_false_2 by exact E. reflexivity.
Qed.

Lemma filter_to_row (P : Row → Prop) `{∀ r, Decision (P r)}
    (data : list Transaction) :
  filter P (to_row <$> data) = to_row <$> filter (fun t => P (to_row t)) data.
Proof.
  induction data as [|t data IH]; [reflexivity|].
  rewrite fmap_cons, !filter_cons, IH.
  destruct (decide (P (to_row t))); reflexivity.
Qed.

Lemma frame_of_cons (t : Transaction) (data : list Transaction) :
  frame_of (t :: data) = table (t :: data).
Proof. reflexivity. Qed.

Lemma frame_of_nonempty (data : list Transaction) :
  data ≠ [] → frame_of data = table data.
Proof. destruct data; [congruence | reflexivity]. Qed.

Lemma amount_sum_of_type_table (data : list Transaction) (label : string) :
  amount_sum_of_type (table data) label = ok (total_of_kind label data).
Proof.
  unfold amount_sum_of_type, getitem, getitem_mask, table; simpl.
  unfold ok, mret, result_ret. f_equal.
  rewrite Series_sum_Qc_sum, select_series_eq. unfold total_of_kind.
  rewrite (filter_to_row (fun r => row_t_type r = label)).
  rewrite <- list_fmap_compose. reflexivity.
Qed.

Lemma totals_table (data : list Transaction) :
  ReportGenerator.totals (table data)
  = ok (totalIncome data, totalExpense data,
        totalIncome data - totalExpense data).
Proof.
  unfold ReportGenerator.totals.
  rewrite !amount_sum_of_type_table. reflexivity.
Qed.

Lemma page_totals_table (data : list Transaction) :
  page_totals (table data)
  = ok (totalIncome data, totalExpense data,
        totalIncome data - totalExpense data).
Proof.
  unfold page_totals. rewrite !amount_sum_of_type_table. reflexivity.
Qed.

Example scenario_totals :
  totalIncome scenario = Qc_of_Z 52000
  ∧ totalExpense scenario = Qc_of_Z 18000
  ∧ totalIncome scenario - totalExpense scenario = Qc_of_Z 34000.
Proof. repeat split; apply Qc_is_canon; reflexivity. Qed.

(** ** Grouping by category *)

Section Groupby.
Variable by_field : Row → string.
Variable field : Row → Qc.

Lemma group_fold_lookup (rs : list Row) (m : gmap string Qc) (c : string) :
  fold_left (group_step by_field field) rs m !! c
  = match group_of by_field c rs with
    | [] => m !! c
    | _ :: _ => Some (default 0 (m !! c) + Qc_sum (field <$> group_of by_field c rs))
    end.
Proof.
  revert m. induction rs as [|r rs IH]; intros m; [reflexivity|].
  cbn [fold_left]. rewrite IH. unfold group_of. rewrite filter_cons.
  unfold group_step at 1 2.
  destruct (decide (by_field r = c)) as [->|Hne].
  - rewrite lookup_insert_eq. cbn [default fmap list_fmap Qc_sum foldr].
    destruct (filter _ rs) as [|r' rs'].
    + cbn. rewrite Qcplus_0_r. reflexivity.
    + f_equal. symmetry. apply Qcplus_assoc.
  - rewrite lookup_insert_ne by exact Hne. reflexivity.
Qed.

Lemma values_sum_comm (j1 j2 : string) (z1 z2 y : Qc) :
  z1 + (z2 + y) = z2 + (z1 + y).
Proof. ring. Qed.

Lemma values_sum_insert_fresh (m : gmap string Qc) (k : string) (v : Qc) :
  m !! k = None → values_sum (<[k := v]> m) = v + values_sum m.
Proof.
  intros Hk. unfold values_sum.
  apply (map_fold_insert_L (fun _ v acc => v + acc)); [|exact Hk].
  intros j1 j2 z1 z2 y _ _ _. apply (values_sum_comm j1 j2).
Qed.

Lemma values_sum_group_step (m : gmap string Qc) (r : Row) :
  values_sum (group_step by_field field m r) = values_sum m + field r.
Proof.
  unfold group_step. destruct (m !! by_field r) as [v|] eqn:E; cbn [default].
  - rewrite <- insert_delete_eq.
    rewrite values_sum_insert_fresh by apply lookup_delete_eq.
    unfold values_sum at 2.
    rewrite (map_fold_delete_L (fun _ v acc => v + acc) 0 (by_field r) v m);
      [| intros j1 j2 z1 z2 y _ _ _; apply (values_sum_comm j1 j2) | exact E].
    fold (values_sum (delete (by_field r) m)). unfold id. ring.
  - rewrite values_sum_insert_fresh by exact E. unfold id. ring.
Qed.

Lemma values_sum_group_fold (rs : list Row) (m : gmap string Qc) :
  values_sum (fold_left (group_step by_field field) rs m) = values_sum m + Qc_sum (field <$> rs).
Proof.
  revert m. induction rs as [|r rs IH]; intros m.
  - cbn. symmetry. apply Qcplus_0_r.
  - cbn [fold_left]. rewrite IH, values_sum_group_step, fmap_cons.
    cbn [Qc_sum foldr]. fold (Qc_sum (field <$> rs)). ring.
Qed.

End Groupby.

Lemma expense_rows_table (data : list Transaction) :
  expense_rows (table data)
  = ok (table (filter (fun t => get_type t = "Expense") data)).
Proof.
  unfold expense_rows, getitem, getitem_mask, table; simpl.
  unfold ok, mret, result_ret. do 2 f_equal.
  rewrite select_series_eq.
  rewrite (filter_to_row (fun r => row_t_type r = "Expense")). reflexivity.
Qed.

Lemma group_of_expenses (c : string) (data : list Transaction) :
  group_of row_category c
    (to_row <$> filter (fun t => get_type t = "Expense") data)
  = to_row <$> expenses_in c data.
Proof.
  unfold group_of, expenses_in.
  induction data as [|t data IH]; [reflexivity|].
  rewrite !filter_cons.
  destruct (decide (get_type t = "Expense")) as [Ht|Ht].
  - rewrite fmap_cons, filter_cons, IH. cbn [to_row row_category].
    destruct (decide (_category t = c)) as [Hc|Hc].
    + rewrite decide_True by (split; assumption). reflexivity.
    + rewrite decide_False by (intros [_ ?]; contradiction). reflexivity.
  - rewrite IH. rewrite decide_False by (intros [? _]; contradiction).
    reflexivity.
Qed.

Example scenario_by_category :
  ∃ exp_df m,
    expense_rows (frame_of scenario) = ok exp_df
    ∧ category_sums exp_df = ok m
    ∧ m !! "Rent" = Some (Qc_of_Z 15000)
    ∧ m !! "Food" = Some (Qc_of_Z 3000)
    ∧ size m = 2%nat.
Proof.
  do 2 eexists. split; [apply expense_rows_table|].
  split; [reflexivity|].
  repeat split; vm_compute; try reflexivity;
    f_equal; apply Qc_is_canon; reflexivity.
Qed.

(** ** What a run draws *)

Lemma bind_emit {B} (e : element) (k : unit → App B) (w : world) :
  (emit e ≫= k) w = k () {| state := state w; page := page w ++ [e] |}.
Proof. reflexivity. Qed.

Lemma bind_lift_ok {A B} (a : A) (k : A → App B) (w : world) :
  (lift (ok a) ≫= k) w = k a w.
Proof. reflexivity. Qed.

Lemma bind_ret {A B} (a : A) (k : A → App B) (w : world) :
  (mret a ≫= k) w = k a w.
Proof. reflexivity. Qed.

Section Page.
Variable fmt : Qc → string.

Lemma generate_report_table (now : datetime) (data : list Transaction) :
  ReportGenerator.generate_report fmt now (table data)
  = ok (ReportGenerator.render fmt (totalIncome data) (totalExpense data)
          (totalIncome data - totalExpense data) now).
Proof.
  unfold ReportGenerator.generate_report. rewrite totals_table. reflexivity.
Qed.

Lemma dashboard_draws (inp : inputs) (data : list Transaction) (w : world) :
  dashboard fmt inp (table data) w
  = (ok (), {| state := state w;
               page := page w ++ dashboard_page fmt (datetime_now inp) data |}).
Proof.
  unfold dashboard, dashboard_page.
  rewrite expense_rows_table, generate_report_table, page_totals_table.
  rewrite !bind_emit, bind_lift_ok. cbn beta iota.
  destruct (decide (totalIncome data < totalExpense data));
    destruct (filter (fun t => get_type t = "Expense") data) as [|t ts];
    unfold mbind, App_bind, emit, lift, mret, App_ret, category_sums,
      groupby_sum, DataFrame_empty; simpl;
    rewrite <- ?app_assoc; reflexivity.
Qed.

End Page.

Lemma init_data (ss : session_state) :
  FinanceTracker.__init__ ss !! "data" = Some (ledger ss).
Proof.
  unfold FinanceTracker.__init__, ledger.
  destruct (ss !! "data") as [l|] eqn:E; [exact E|].
  apply lookup_insert_eq.
Qed.

Lemma sidebar_draws (inp : inputs) (w : world) (l : list Transaction) :
  state w !! "data" = Some l →
  ∃ ss', sidebar inp w
         = (ok (), {| state := ss';
                      page := page w ++ [header "➕ Add Transaction"]
                              ++ form_message inp |})
         ∧ ss' !! "data" = Some (ledger_after inp l).
Proof.
  intros Hl. unfold sidebar, form_message, ledger_after.
  rewrite bind_emit.
  destruct (button_Add inp).
  2:{ exists (state w). split; [|exact Hl].
      unfold mret, App_ret. cbn. reflexivity. }
  unfold try_except_ValueError, mbind, App_bind, lift, on_state, emit.
  assert (Hnew : (if decide (type_selectbox inp = "Income")
                  then Income.new (date_input inp) (category_selectbox inp)
                         (number_input inp)
                  else Expense.new (date_input inp) (category_selectbox inp)
                         (number_input inp)) = ok (submitted inp)).
  { unfold submitted. destruct (decide _); reflexivity. }
  rewrite Hnew. cbn [ok state page].
  unfold FinanceTracker.add_transaction, session_data.
  change (_amount (submitted inp)) with (number_input inp).
  destruct (decide (number_input inp ≤ 0)).
  - exists (state w). cbn. split; [rewrite <- app_assoc; reflexivity | exact Hl].
  - rewrite Hl. eexists. cbn. split; [rewrite <- app_assoc; reflexivity|].
    apply lookup_insert_eq.
Qed.

Section Run.
Variable fmt : Qc → string.

(** What one run of the script draws and leaves in the session. *)
Lemma run_draws (inp : inputs) (ss : session_state) :
  let l' := ledger_after inp (ledger ss) in
  ∃ ss', ss' !! "data" = Some l'
    ∧ run fmt inp ss
      = (ok (), {| state := ss';
                   page := [title "Personal Finance Tracker";
                            header "➕ Add Transaction"]
                           ++ form_message inp
                           ++ match l' with
                              | [] => [info "No transactions added yet."]
                              | _ :: _ => dashboard_page fmt (datetime_now inp) l'
                              end |}).
Proof.
  intros l'. unfold run, script.
  rewrite bind_emit. cbn [state page app].
  unfold mbind at 1, App_bind at 1. cbn [on_state state page].
  unfold mbind at 1, App_bind at 1.
  destruct (sidebar_draws inp
              {| state := FinanceTracker.__init__ ss;
                 page := [title "Personal Finance Tracker"] |} (ledger ss))
    as (ss' & Hside & Hss'); [apply init_data|].
  rewrite Hside. exists ss'. split; [exact Hss'|].
  unfold mbind at 1, App_bind at 1. unfold on_state at 1. cbn [state page].
  unfold FinanceTracker.to_dataframe, session_data. rewrite Hss'.
  cbn [mbind result_bind ok mret result_ret].
  fold l'. destruct l' as [|t l''].
  - cbn. reflexivity.
  - rewrite frame_of_cons.
    change (negb (DataFrame_empty (table (t :: l'')))) with true. cbn iota.
    rewrite dashboard_draws. cbn [state page]. rewrite <- app_assoc. reflexivity.
Qed.

End Run.

(** ** The empty ledger *)

(** C7, as claimed, fails: the frame of the empty ledger has no column, and
    neither the report generator nor the page code yields totals on it:
    the first column access raises [KeyError]. *)
Lemma empty_ledger_not_aggregated :
  ledger (FinanceTracker.__init__ ∅) = []
  ∧ FinanceTracker.to_dataframe (FinanceTracker.__init__ ∅) = ok (frame_of [])
  ∧ columns (frame_of []) = []
  ∧ ReportGenerator.totals (frame_of []) = raise (KeyError "t_type")
  ∧ page_totals (frame_of []) = raise (KeyError "t_type")
  ∧ expense_rows (frame_of []) = raise (KeyError "t_type")
  ∧ ReportGenerator.totals (frame_of []) ≠ ok (0, 0, 0 - 0).
Proof. repeat split; try reflexivity. discriminate. Qed.

(** C7, amended: when the ledger is empty after the form has been handled,
    the run computes no aggregate: it succeeds and draws the title, the
    form with its message, and the notice that no transaction has been
    added; the ledger it leaves is empty. *)
Theorem empty_ledger_page (fmt : Qc → string) (inp : inputs)
    (ss : session_state) :
  ledger_after inp (ledger ss) = [] →
  ∃ ss', run fmt inp ss
         = (ok (), {| state := ss';
                      page := [title "Personal Finance Tracker";
                               header "➕ Add Transaction"]
                              ++ form_message inp
                              ++ [info "No transactions added yet."] |})
         ∧ ledger ss' = [].
Proof.
  intros Hempty. destruct (run_draws fmt inp ss) as (ss' & Hss' & Hrun).
  rewrite Hempty in Hss', Hrun. exists ss'. split; [exact Hrun|].
  apply ledger_lookup. exact Hss'.
Qed.

Lemma empty_ledger_page_witness :
  let inp := mkInputs (Date 2024 1 1) "Expense" "Food" 0 true
                      (DateTime (Date 2024 1 1) 9 30) in
  ∃ ss', run (fun _ => "") inp ∅
         = (ok (), {| state := ss';
                      page := [title "Personal Finance Tracker";
                               header "➕ Add Transaction"]
                              ++ form_message inp
                              ++ [info "No transactions added yet."] |})
         ∧ ledger ss' = [].
Proof.
  intros inp. apply (empty_ledger_page (fun _ => "") inp ∅). reflexivity.
Defined.

(** ** The report text *)

Lemma string_app_assoc (s1 s2 s3 : string) :
  (s1 +:+ s2) +:+ s3 = s1 +:+ s2 +:+ s3.
Proof.
  induction s1 as [|a s1 IH]; [reflexivity|].
  change (String a ((s1 +:+ s2) +:+ s3) = String a (s1 +:+ s2 +:+ s3)).
  f_equal. exact IH.
Qed.

Lemma occurs_in_here (before s after : string) :
  occurs_in s (before +:+ s +:+ after).
Proof. exists before, after. reflexivity. Qed.

Lemma occurs_in_later (prefix s t : string) :
  occurs_in s t → occurs_in s (prefix +:+ t).
Proof.
  intros (before & after & ->). exists (prefix +:+ before), after.
  symmetry. apply string_app_assoc.
Qed.

Section ReportText.
Variable fmt : Qc → string.

Lemma render_occurrences (income expense balance : Qc) (now : datetime) :
  let report_text := ReportGenerator.render fmt income expense balance now in
  occurs_in (fmt income) report_text
  ∧ occurs_in (fmt expense) report_text
  ∧ occurs_in (fmt balance) report_text
  ∧ occurs_in (strftime now) report_text.
Proof.
  unfold ReportGenerator.render. cbv zeta.
  split; [apply occurs_in_here|].
  split; [do 2 apply occurs_in_later; apply occurs_in_here|].
  split; [do 4 apply occurs_in_later; apply occurs_in_here|].
  do 6 apply occurs_in_later. apply occurs_in_here.
Qed.

End ReportText.

(** C6, as claimed, fails: two ledgers whose expenses fall in different
    categories, with the same totals, get the same report text whatever the
    number format and the clock, although their per-category sums differ:
    the text does not hold the breakdown. *)
Lemma report_omits_breakdown :
  let data1 :=
    [ mkTransaction ExpenseClass (Date 2024 1 10) "Rent" (Qc_of_Z 15000);
      mkTransaction ExpenseClass (Date 2024 1 12) "Food" (Qc_of_Z 3000) ] in
  let data2 :=
    [ mkTransaction ExpenseClass (Date 2024 1 10) "Food" (Qc_of_Z 15000);
      mkTransaction ExpenseClass (Date 2024 1 12) "Rent" (Qc_of_Z 3000) ] in
  (∃ exp_df1 m1 exp_df2 m2,
      expense_rows (frame_of data1) = ok exp_df1
      ∧ category_sums exp_df1 = ok m1
      ∧ expense_rows (frame_of data2) = ok exp_df2
      ∧ category_sums exp_df2 = ok m2
      ∧ m1 !! "Rent" = Some (Qc_of_Z 15000)
      ∧ m2 !! "Rent" = Some (Qc_of_Z 3000)
      ∧ m1 ≠ m2)
  ∧ ∀ fmt now,
      ReportGenerator.generate_report fmt now (frame_of data1)
      = ReportGenerator.generate_report fmt now (frame_of data2)
      ∧ ReportGenerator.generate_report fmt now (frame_of data1)
        = ok (ReportGenerator.render fmt 0 (Qc_of_Z 18000) (- Qc_of_Z 18000) now).
Proof.
  intros data1 data2. split.
  - do 4 eexists.
    split; [apply (expense_rows_table data1)|]. split; [reflexivity|].
    split; [apply (expense_rows_table data2)|]. split; [reflexivity|].
    assert (H1 : ∀ m : gmap string Qc,
               m = fold_left (group_step row_category row_amount)
                     (to_row <$> filter (fun t => get_type t = "Expense") data1) ∅ →
               m !! "Rent" = Some (Qc_of_Z 15000)).
    { intros m ->. vm_compute. f_equal. apply Qc_is_canon. reflexivity. }
    assert (H2 : ∀ m : gmap string Qc,
               m = fold_left (group_step row_category row_amount)
                     (to_row <$> filter (fun t => get_type t = "Expense") data2) ∅ →
               m !! "Rent" = Some (Qc_of_Z 3000)).
    { intros m ->. vm_compute. f_equal. apply Qc_is_canon. reflexivity. }
    split; [apply H1; reflexivity|]. split; [apply H2; reflexivity|].
    intros Heq. specialize (H1 _ eq_refl). specialize (H2 _ eq_refl).
    unfold category_sums, groupby_sum in Heq. cbn [columns rows table] in Heq.
    match type of H1 with ?a !! _ = _ =>
      match type of H2 with ?b !! _ = _ =>
        assert (Hab : a = b) end end.
    { unfold table, category_sums, groupby_sum in Heq. exact Heq. }
    rewrite Hab, H2 in H1. discriminate H1.
  - intros fmt now.
    change (frame_of data1) with (table data1).
    change (frame_of data2) with (table data2).
    rewrite !generate_report_table.
    assert (HI1 : totalIncome data1 = 0) by reflexivity.
    assert (HI2 : totalIncome data2 = 0) by reflexivity.
    assert (HE1 : totalExpense data1 = Qc_of_Z 18000)
      by (apply Qc_is_canon; reflexivity).
    assert (HE2 : totalExpense data2 = Qc_of_Z 18000)
      by (apply Qc_is_canon; reflexivity).
    rewrite HI1, HI2, HE1, HE2.
    assert (HB : 0 - Qc_of_Z 18000 = - Qc_of_Z 18000)
      by (apply Qc_is_canon; reflexivity).
    rewrite HB. split; reflexivity.
Qed.

(** C6, amended: over the table of any sequence of transactions the report
    generator returns a text in which the total income, the total expense,
    the balance and the timestamp occur; any other sequence with the same
    two totals gets the same text, so no per-category figure is part of
    it. *)
Theorem report_contents (fmt : Qc → string) (now : datetime)
    (data : list Transaction) :
  ∃ report_text,
    ReportGenerator.generate_report fmt now (table data) = ok report_text
    ∧ occurs_in (fmt (totalIncome data)) report_text
    ∧ occurs_in (fmt (totalExpense data)) report_text
    ∧ occurs_in (fmt (totalIncome data - totalExpense data)) report_text
    ∧ occurs_in (strftime now) report_text
    ∧ ∀ data',
        totalIncome data' = totalIncome data →
        totalExpense data' = totalExpense data →
        ReportGenerator.generate_report fmt now (table data') = ok report_text.
Proof.
  eexists. split; [apply generate_report_table|].
  destruct (render_occurrences fmt (totalIncome data) (totalExpense data)
              (totalIncome data - totalExpense data) now)
    as (Hi & He & Hb & Hnow).
  do 4 (split; [assumption|]).
  intros data' HI HE. rewrite generate_report_table, HI, HE. reflexivity.
Qed.

Lemma report_contents_witness :
  let now := DateTime (Date 2024 1 31) 18 5 in
  let moved :=
    [ mkTransaction IncomeClass (Date 2024 1 1) "Others" (Qc_of_Z 52000);
      mkTransaction ExpenseClass (Date 2024 1 10) "Travel" (Qc_of_Z 18000) ] in
  ∃ report_text,
    ReportGenerator.generate_report fraction now (table scenario) = ok report_text
    ∧ occurs_in "52000/1" report_text
    ∧ occurs_in "18000/1" report_text
    ∧ occurs_in "34000/1" report_text
    ∧ occurs_in "31-01-2024 18:05" report_text
    ∧ ReportGenerator.generate_report fraction now (table moved) = ok report_text.
Proof.
  intros now moved.
  destruct (report_contents fraction now scenario)
    as (report_text & Hgen & Hi & He & Hb & Hnow & Hsame).
  exists report_text. split; [exact Hgen|].
  split; [exact Hi|]. split; [exact He|]. split; [exact Hb|].
  split; [exact Hnow|].
  apply (Hsame moved); apply Qc_is_canon; reflexivity.
Defined.

(** ** The two aggregation paths *)

(** C10: on every frame the figures the page computes are those the report
    generator computes (both fail alike on a frame without the columns);
    on the table of any sequence of transactions both return the same
    three figures, the page shows them as its three metrics and the report
    drawn on the same page is rendered from them. *)
Theorem page_and_report_totals_agree :
  (∀ df, page_totals df = ReportGenerator.totals df)
  ∧ ∀ fmt inp data w,
      ∃ income expense balance,
        ReportGenerator.totals (table data) = ok (income, expense, balance)
        ∧ page_totals (table data) = ok (income, expense, balance)
        ∧ let drawn := page (dashboard fmt inp (table data) w).2 in
          metric "Total Income" ("₹ " +:+ fmt income) ∈ drawn
          ∧ metric "Total Expense" ("₹ " +:+ fmt expense) ∈ drawn
          ∧ metric "Savings" ("₹ " +:+ fmt balance) ∈ drawn
          ∧ text (ReportGenerator.render fmt income expense balance
                    (datetime_now inp)) ∈ drawn.
Proof.
  split; [reflexivity|].
  intros fmt inp data w. do 3 eexists.
  split; [apply totals_table|]. split; [apply page_totals_table|].
  rewrite dashboard_draws. cbn [snd page]. unfold dashboard_page. cbv zeta.
  repeat split; rewrite !elem_of_app, !elem_of_cons; auto 20.
Qed.

(** * Further properties of the program *)

(** ** The session dictionary *)

Lemma init_insert (ss : session_state) :
  FinanceTracker.__init__ ss = <["data" := ledger ss]> ss.
Proof.
  unfold FinanceTracker.__init__, ledger.
  destruct (ss !! "data") as [l|] eqn:E; cbn [default].
  - symmetry. apply insert_id. exact E.
  - reflexivity.
Qed.

(** X1: creating the tracker again does not reset the session: [__init__]
    is idempotent, binds ["data"] to the ledger the session already holds
    (the empty list for a fresh session), and changes no other key. *)
Theorem init_preserves_session (ss : session_state) :
  FinanceTracker.__init__ (FinanceTracker.__init__ ss)
    = FinanceTracker.__init__ ss
  ∧ FinanceTracker.__init__ ss !! "data" = Some (ledger ss)
  ∧ delete "data" (FinanceTracker.__init__ ss) = delete "data" ss
  ∧ FinanceTracker.__init__ (∅ : session_state) = {[ "data" := [] ]}.
Proof.
  split; [|split; [apply init_data|split; [|reflexivity]]].
  - rewrite (init_insert (FinanceTracker.__init__ ss)), ledger_init, init_insert.
    apply insert_insert_eq.
  - rewrite init_insert. apply delete_insert_eq.
Qed.

(** ** The frame of a ledger *)

Lemma to_row_inj (t1 t2 : Transaction) : to_row t1 = to_row t2 → t1 = t2.
Proof.
  destruct t1 as [[] d1 c1 a1], t2 as [[] d2 c2 a2]; unfold to_row, get_type;
    cbn; intros H; inversion H; reflexivity.
Qed.

Lemma rows_frame_of (data : list Transaction) :
  rows (frame_of data) = to_row <$> data.
Proof. destruct data; reflexivity. Qed.

(** X2: the frame built from a ledger has one row per transaction, in
    ledger order, row [i] carrying the date, type label, category and
    amount of transaction [i]; the type label is the only trace of the
    class, and it suffices: two ledgers with the same frame are equal. *)
Theorem to_dataframe_faithful (data : list Transaction) :
  length (rows (frame_of data)) = length data
  ∧ (∀ i, rows (frame_of data) !! i
          = (fun t => mkRow (_date t) (get_type t) (_category t) (_amount t))
              <$> data !! i)
  ∧ (∀ data', frame_of data' = frame_of data → data' = data).
Proof.
  rewrite rows_frame_of. split; [apply length_fmap|]. split.
  - intros i. apply list_lookup_fmap.
  - intros data' H. apply (f_equal rows) in H. rewrite !rows_frame_of in H.
    revert data' H. induction data as [|t data IH]; intros [|t' data'] H;
      try discriminate H; [reflexivity|].
    rewrite !fmap_cons in H.
    assert (Ht : to_row t' = to_row t) by exact (f_equal (hd (to_row t)) H).
    assert (Hrest : to_row <$> data' = to_row <$> data) by exact (f_equal tail H).
    f_equal; [apply to_row_inj; exact Ht | apply IH; exact Hrest].
Qed.

Lemma to_dataframe_faithful_witness :
  let data' := rev (rev scenario) in
  frame_of data' = frame_of scenario ∧ data' = scenario.
Proof.
  intros data'.
  assert (H : frame_of data' = frame_of scenario) by reflexivity.
  split; [exact H|].
  exact (proj2 (proj2 (to_dataframe_faithful scenario)) data' H).
Defined.

(** X3: the frame of a ledger is empty, in the sense of the guard of line
    119, exactly when the ledger holds no transaction; it then has no
    column, and otherwise it has the four columns of the records. *)
Theorem frame_empty_iff_ledger_empty (data : list Transaction) :
  DataFrame_empty (frame_of data) = bool_decide (data = [])
  ∧ columns (frame_of data)
    = (if bool_decide (data = []) then []
       else ["date"; "t_type"; "category"; "amount"]).
Proof. destruct data; split; reflexivity. Qed.

(** ** The report generator on an arbitrary frame *)

Lemma amount_sum_of_type_columns (df : DataFrame) (label : string) :
  amount_sum_of_type df label
  = if decide ("t_type" ∈ columns df) then
      if decide ("amount" ∈ columns df)
      then ok (rows_total label (rows df))
      else raise (KeyError "amount")
    else raise (KeyError "t_type").
Proof.
  unfold amount_sum_of_type, getitem, getitem_mask. cbn [columns rows].
  destruct (decide ("t_type" ∈ columns df)); [|reflexivity].
  cbn [mbind result_bind ok].
  destruct (decide ("amount" ∈ columns df)); [|reflexivity].
  cbn [mbind result_bind ok mret result_ret]. f_equal.
  rewrite Series_sum_Qc_sum, select_series_eq. reflexivity.
Qed.

(** X4: on any frame, [generate_report] raises [KeyError] for the column
    ["t_type"] when the frame lacks it, else for ["amount"] when the frame
    lacks that one, and otherwise returns the text rendered from the sum of
    the amounts of the rows labelled ["Income"], the sum of those labelled
    ["Expense"] and their difference; rows with any other label count for
    nothing. *)
Theorem generate_report_columns (fmt : Qc → string) (now : datetime)
    (df : DataFrame) :
  ReportGenerator.generate_report fmt now df
  = if decide ("t_type" ∈ columns df) then
      if decide ("amount" ∈ columns df) then
        ok (ReportGenerator.render fmt
              (rows_total "Income" (rows df)) (rows_total "Expense" (rows df))
              (rows_total "Income" (rows df) - rows_total "Expense" (rows df))
              now)
      else raise (KeyError "amount")
    else raise (KeyError "t_type").
Proof.
  unfold ReportGenerator.generate_report, ReportGenerator.totals.
  rewrite !amount_sum_of_type_columns.
  destruct (decide ("t_type" ∈ columns df)); [|reflexivity].
  destruct (decide ("amount" ∈ columns df)); reflexivity.
Qed.

(** ** One run of the script *)

Lemma add_transaction_init (inp : inputs) (ss : session_state) :
  (if button_Add inp
   then (FinanceTracker.add_transaction (submitted inp)
           (FinanceTracker.__init__ ss)).2
   else FinanceTracker.__init__ ss)
  = <["data" := ledger_after inp (ledger ss)]> ss.
Proof.
  unfold ledger_after. destruct (button_Add inp); [|apply init_insert].
  unfold FinanceTracker.add_transaction, session_data.
  change (_amount (submitted inp)) with (number_input inp).
  destruct (decide (number_input inp ≤ 0)); [apply init_insert|].
  rewrite init_data. cbn [snd]. rewrite init_insert. apply insert_insert_eq.
Qed.

Lemma run_result (fmt : Qc → string) (inp : inputs) (ss : session_state) :
  run fmt inp ss
  = (ok (), {| state := <["data" := ledger_after inp (ledger ss)]> ss;
               page := run_page fmt inp (ledger_after inp (ledger ss)) |}).
Proof.
  destruct (run_draws fmt inp ss) as (ss' & _ & Hrun).
  pose proof (script_state fmt inp ss) as Hstate.
  rewrite add_transaction_init, Hrun in Hstate. cbn [snd state] in Hstate.
  rewrite Hrun, Hstate. reflexivity.
Qed.


(** X6: when Add is pressed with a positive amount, the run appends the
    submitted transaction (Income when the type box says ["Income"],
    Expense otherwise) to the ledger, confirms with "Transaction Added" and
    draws the dashboard of the extended ledger; the notice for an empty
    ledger is not shown. *)
Theorem form_accepts (fmt : Qc → string) (inp : inputs) (ss : session_state) :
  button_Add inp = true →
  0 < number_input inp →
  run fmt inp ss
  = (ok (), {| state := <["data" := ledger ss ++ [submitted inp]]> ss;
               page := [title "Personal Finance Tracker";
                        header "➕ Add Transaction";
                        success "Transaction Added"]
                       ++ dashboard_page fmt (datetime_now inp)
                            (ledger ss ++ [submitted inp]) |}).
Proof.
  intros Hadd Hpos. rewrite run_result.
  unfold run_page, ledger_after, form_message. rewrite Hadd.
  destruct (decide (number_input inp ≤ 0)) as [Hle|_].
  - exfalso. exact (Qclt_not_le _ _ Hpos Hle).
  - destruct (ledger ss); reflexivity.
Qed.

Lemma form_accepts_witness :
  let inp := mkInputs (Date 2024 1 12) "Expense" "Food" (Qc_of_Z 3000) true
                      (DateTime (Date 2024 1 12) 20 15) in
  let ss : session_state := {[ "data" := [] ]} in
  run fraction inp ss
  = (ok (), {| state := <["data" := ledger ss ++ [submitted inp]]> ss;
               page := [title "Personal Finance Tracker";
                        header "➕ Add Transaction";
                        success "Transaction Added"]
                       ++ dashboard_page fraction (datetime_now inp)
                            (ledger ss ++ [submitted inp]) |}).
Proof.
  intros inp ss. apply (form_accepts fraction inp ss); reflexivity.
Defined.

(** X7: when Add is pressed with an amount that is not positive, the run
    catches the [ValueError], shows its message "Amount must be positive"
    as an error, keeps the ledger, and goes on to draw the page of the
    unchanged ledger. *)
Theorem form_rejects (fmt : Qc → string) (inp : inputs) (ss : session_state) :
  button_Add inp = true →
  number_input inp ≤ 0 →
  run fmt inp ss
  = (ok (), {| state := FinanceTracker.__init__ ss;
               page := [title "Personal Finance Tracker";
                        header "➕ Add Transaction";
                        error "Amount must be positive"]
                       ++ match ledger ss with
                          | [] => [info "No transactions added yet."]
                          | _ :: _ =>
                              dashboard_page fmt (datetime_now inp) (ledger ss)
                          end |}).
Proof.
  intros Hadd Hle. rewrite run_result, init_insert.
  unfold run_page, ledger_after, form_message. rewrite Hadd.
  destruct (decide (number_input inp ≤ 0)); [reflexivity | contradiction].
Qed.

Lemma form_rejects_witness :
  let inp := mkInputs (Date 2024 1 1) "Expense" "Food" 0 true
                      (DateTime (Date 2024 1 1) 9 30) in
  run fraction inp ∅
  = (ok (), {| state := FinanceTracker.__init__ ∅;
               page := [title "Personal Finance Tracker";
                        header "➕ Add Transaction";
                        error "Amount must be positive"]
                       ++ match ledger (∅ : session_state) with
                          | [] => [info "No transactions added yet."]
                          | _ :: _ =>
                              dashboard_page fraction (datetime_now inp)
                                (ledger (∅ : session_state))
                          end |}).
Proof.
  intros inp. apply (form_rejects fraction inp ∅); [reflexivity|].
  apply Qcle_refl.
Defined.

(** X8: a rerun in which Add is not pressed shows no form message and
    keeps the ledger.  A further rerun without Add, whatever its widgets
    and its clock read, leaves the same session; it draws the same page
    when its clock reads the same date and minute, or when the ledger is
    empty (the report on the page carries the time of the run, so a rerun
    in another minute shows another report). *)
Theorem rerun_without_add (fmt : Qc → string) (inp inp' : inputs)
    (ss : session_state) :
  button_Add inp = false →
  button_Add inp' = false →
  run fmt inp ss
    = (ok (), {| state := FinanceTracker.__init__ ss;
                 page := [title "Personal Finance Tracker";
                          header "➕ Add Transaction"]
                         ++ match ledger ss with
                            | [] => [info "No transactions added yet."]
                            | _ :: _ =>
                                dashboard_page fmt (datetime_now inp) (ledger ss)
                            end |})
  ∧ state (run fmt inp' (state (run fmt inp ss).2)).2
    = state (run fmt inp ss).2
  ∧ (datetime_now inp' = datetime_now inp ∨ ledger ss = [] →
     run fmt inp' (state (run fmt inp ss).2) = run fmt inp ss).
Proof.
  intros Hadd Hadd'.
  assert (Hrun : ∀ i s, button_Add i = false → run fmt i s
            = (ok (), {| state := FinanceTracker.__init__ s;
                 page := [title "Personal Finance Tracker";
                          header "➕ Add Transaction"]
                         ++ match ledger s with
                            | [] => [info "No transactions added yet."]
                            | _ :: _ =>
                                dashboard_page fmt (datetime_now i) (ledger s)
                            end |})).
  { intros i s Hi. rewrite run_result, init_insert.
    unfold run_page, ledger_after, form_message. rewrite Hi. reflexivity. }
  assert (Hinit : FinanceTracker.__init__ (FinanceTracker.__init__ ss)
                  = FinanceTracker.__init__ ss).
  { rewrite (init_insert (FinanceTracker.__init__ ss)), ledger_init, init_insert.
    apply insert_insert_eq. }
  split; [apply Hrun; exact Hadd|].
  rewrite (Hrun inp ss Hadd). cbn [snd state].
  rewrite (Hrun inp' (FinanceTracker.__init__ ss) Hadd'). cbn [snd state].
  rewrite ledger_init, Hinit. split; [reflexivity|].
  intros [Hclock|Hempty].
  - rewrite Hclock. reflexivity.
  - rewrite Hempty. reflexivity.
Qed.

Lemma rerun_without_add_witness :
  let inp := mkInputs (Date 2024 1 1) "Income" "Salary" 0 false
                      (DateTime (Date 2024 1 31) 18 5) in
  let inp' := mkInputs (Date 2024 2 2) "Expense" "Food" 1 false
                       (DateTime (Date 2024 1 31) 18 5) in
  let ss : session_state := {[ "data" := scenario ]} in
  state (run fraction inp' (state (run fraction inp ss).2)).2
    = state (run fraction inp ss).2
  ∧ run fraction inp' (state (run fraction inp ss).2) = run fraction inp ss.
Proof.
  intros inp inp' ss.
  destruct (rerun_without_add fraction inp inp' ss) as (_ & Hstate & Hpage);
    [reflexivity | reflexivity |].
  split; [exact Hstate|]. apply Hpage. left. reflexivity.
Defined.

(** ** What is on the page *)

Lemma elem_of_dashboard_page (fmt : Qc → string) (now : datetime)
    (data : list Transaction) (e : element) :
  e ∈ dashboard_page fmt now data ↔
    e ∈ [ subheader "📋 Transactions"; dataframe (table data);
          metric "Total Income" ("₹ " +:+ fmt (totalIncome data));
          metric "Total Expense" ("₹ " +:+ fmt (totalExpense data));
          metric "Savings"
            ("₹ " +:+ fmt (totalIncome data - totalExpense data));
          subheader "📊 Analysis";
          pyplot (bar ["Income"; "Expense"]
                      [totalIncome data; totalExpense data]);
          subheader "📄 Generate Report";
          text (ReportGenerator.render fmt (totalIncome data)
                  (totalExpense data) (totalIncome data - totalExpense data)
                  now);
          download_button "⬇️ Download Report"
            (ReportGenerator.render fmt (totalIncome data)
               (totalExpense data) (totalIncome data - totalExpense data) now)
            "Finance_Report.txt" "text/plain" ]
    ∨ (totalIncome data < totalExpense data ∧ e = warning)
    ∨ (filter (fun t => get_type t = "Expense") data ≠ []
       ∧ e = pyplot (pie (fold_left (group_step row_category row_amount)
                            (to_row <$> filter (fun t => get_type t = "Expense")
                                          data) ∅))).
Proof.
  unfold dashboard_page, warning. cbv zeta.
  destruct (decide (totalIncome data < totalExpense data)) as [Hlt|Hlt];
    destruct (filter (fun t => get_type t = "Expense") data) as [|t ts];
    rewrite !elem_of_app, !elem_of_cons, !elem_of_nil;
    intuition congruence.
Qed.

Lemma elem_of_run_page (fmt : Qc → string) (inp : inputs)
    (l' : list Transaction) (e : element) :
  e ∈ run_page fmt inp l' ↔
    e = title "Personal Finance Tracker"
    ∨ e = header "➕ Add Transaction"
    ∨ e ∈ form_message inp
    ∨ (l' = [] ∧ e = info "No transactions added yet.")
    ∨ (l' ≠ [] ∧ e ∈ dashboard_page fmt (datetime_now inp) l').
Proof.
  unfold run_page. rewrite !elem_of_app, !elem_of_cons, elem_of_nil.
  destruct l' as [|t l'']; rewrite ?elem_of_cons, ?elem_of_nil;
    intuition congruence.
Qed.

Lemma elem_of_form_message (inp : inputs) (e : element) :
  e ∈ form_message inp ↔
    button_Add inp = true
    ∧ ((number_input inp ≤ 0 ∧ e = error "Amount must be positive")
       ∨ (0 < number_input inp ∧ e = success "Transaction Added")).
Proof.
  unfold form_message. destruct (button_Add inp).
  - destruct (decide (number_input inp ≤ 0)) as [Hle|Hgt];
      rewrite elem_of_cons, elem_of_nil.
    + pose proof (Qcle_not_lt _ _ Hle). intuition congruence.
    + pose proof (Qcnot_le_lt _ _ Hgt). intuition congruence.
  - rewrite elem_of_nil. intuition congruence.
Qed.


(** X10: the notice "No transactions added yet." is on the page of a run
    exactly when the ledger the run leaves is empty, and a metric is on the
    page exactly when that ledger is not empty: the page shows either the
    notice or the dashboard, never both and never neither. *)
Theorem notice_or_dashboard (fmt : Qc → string) (inp : inputs)
    (ss : session_state) :
  let l' := ledger (state (run fmt inp ss).2) in
  (info "No transactions added yet." ∈ page (run fmt inp ss).2 ↔ l' = [])
  ∧ ((∃ label value, metric label value ∈ page (run fmt inp ss).2) ↔ l' ≠ []).
Proof.
  rewrite run_result. cbn [snd state page]. rewrite ledger_insert.
  set (l' := ledger_after inp (ledger ss)). cbv zeta. split.
  - rewrite elem_of_run_page, elem_of_form_message, elem_of_dashboard_page.
    rewrite !elem_of_cons, elem_of_nil. unfold warning. split.
    + intros [H|[H|[H|[H|H]]]]; try discriminate H.
      * destruct H as [_ [[_ H]|[_ H]]]; discriminate H.
      * destruct H as [H _]; exact H.
      * destruct H as [_ [H|[[_ H]|[_ H]]]]; try discriminate H.
        repeat (destruct H as [H|H]; [discriminate H|]). destruct H.
    + intros Hl. do 3 right. left. split; [exact Hl | reflexivity].
  - split.
    + intros (label & value & H).
      rewrite elem_of_run_page, elem_of_form_message in H.
      destruct H as [H|[H|[H|[H|H]]]]; try discriminate H.
      * destruct H as [_ [[_ H]|[_ H]]]; discriminate H.
      * destruct H as [_ H]; discriminate H.
      * destruct H as [Hne _]; exact Hne.
    + intros Hne. eexists _, _. rewrite elem_of_run_page. do 4 right.
      split; [exact Hne|]. rewrite elem_of_dashboard_page. left.
      rewrite !elem_of_cons. right. right. left. reflexivity.
Qed.

(** X11: every download button on the page of a run carries the file name
    "Finance_Report.txt", the type "text/plain" and, as data, the very text
    shown on the page, which is the report generated from the frame of the
    ledger at the clock of the run; and every text shown can be
    downloaded. *)
Theorem download_is_displayed_report (fmt : Qc → string) (inp : inputs)
    (ss : session_state) :
  let w := (run fmt inp ss).2 in
  (∀ label data file_name mime,
      download_button label data file_name mime ∈ page w →
      file_name = "Finance_Report.txt" ∧ mime = "text/plain"
      ∧ text data ∈ page w
      ∧ ReportGenerator.generate_report fmt (datetime_now inp)
          (frame_of (ledger (state w))) = ok data)
  ∧ (∀ body, text body ∈ page w →
       download_button "⬇️ Download Report" body
                       "Finance_Report.txt" "text/plain" ∈ page w).
Proof.
  rewrite run_result. cbn [snd state page]. rewrite ledger_insert.
  set (l' := ledger_after inp (ledger ss)). cbv zeta. split.
  - intros label data file_name mime H.
    rewrite elem_of_run_page, elem_of_form_message in H.
    destruct H as [H|[H|[H|[H|H]]]]; try discriminate H.
    + destruct H as [_ [[_ H]|[_ H]]]; discriminate H.
    + destruct H as [_ H]; discriminate H.
    + destruct H as [Hne H]. rewrite elem_of_dashboard_page in H.
      destruct H as [H|[[_ H]|[_ H]]]; try discriminate H.
      rewrite !elem_of_cons, elem_of_nil in H.
      repeat (destruct H as [H|H]; [try discriminate H|]); [|destruct H].
      injection H as -> -> -> ->.
      split; [reflexivity|]. split; [reflexivity|]. split.
      * rewrite elem_of_run_page. do 4 right. split; [exact Hne|].
        rewrite elem_of_dashboard_page. left. rewrite !elem_of_cons. auto 12.
      * rewrite (frame_of_nonempty _ Hne). apply generate_report_table.
  - intros body H.
    rewrite elem_of_run_page, elem_of_form_message in H.
    destruct H as [H|[H|[H|[H|H]]]]; try discriminate H.
    + destruct H as [_ [[_ H]|[_ H]]]; discriminate H.
    + destruct H as [_ H]; discriminate H.
    + destruct H as [Hne H]. rewrite elem_of_dashboard_page in H.
      destruct H as [H|[[_ H]|[_ H]]]; try discriminate H.
      rewrite !elem_of_cons, elem_of_nil in H.
      repeat (destruct H as [H|H]; [try discriminate H|]); [|destruct H].
      injection H as ->.
      rewrite elem_of_run_page. do 4 right. split; [exact Hne|].
      rewrite elem_of_dashboard_page. left. rewrite !elem_of_cons. auto 12.
Qed.

Lemma download_is_displayed_report_witness :
  let inp := mkInputs (Date 2024 1 1) "Income" "Salary" 0 false
                      (DateTime (Date 2024 1 31) 18 5) in
  let ss : session_state := {[ "data" := scenario ]} in
  let w := (run fraction inp ss).2 in
  let body := ReportGenerator.render fraction (totalIncome scenario)
                (totalExpense scenario)
                (totalIncome scenario - totalExpense scenario)
                (datetime_now inp) in
  text body ∈ page w
  ∧ download_button "⬇️ Download Report" body
                    "Finance_Report.txt" "text/plain" ∈ page w.
Proof.
  intros inp ss w body.
  assert (Htext : text body ∈ page w).
  { unfold w. rewrite run_result. cbn [snd page].
    rewrite elem_of_run_page. do 4 right. split; [discriminate|].
    rewrite elem_of_dashboard_page. left. rewrite !elem_of_cons.
    do 8 right. left. reflexivity. }
  split; [exact Htext|].
  exact (proj2 (download_is_displayed_report fraction inp ss) body Htext).
Defined.

(** ** The pie chart *)

Lemma category_lookup (data : list Transaction) (c : string) :
  fold_left (group_step row_category row_amount)
    (to_row <$> filter (fun t => get_type t = "Expense") data) ∅ !! c
  = match expenses_in c data with
    | [] => None
    | _ :: _ => Some (Qc_sum (_amount <$> expenses_in c data))
    end.
Proof.
  rewrite group_fold_lookup, group_of_expenses.
  rewrite lookup_empty, <- list_fmap_compose.
  destruct (expenses_in c data) as [|t ts]; [reflexivity|].
  rewrite fmap_cons. cbn [default]. unfold id.
  rewrite Qcplus_0_l. reflexivity.
Qed.

Lemma Qc_sum_nonneg (l : list Qc) : Forall (fun q => 0 < q) l → 0 ≤ Qc_sum l.
Proof.
  induction 1 as [|q l Hq _ IH]; [apply Qcle_refl|].
  cbn [Qc_sum foldr]. fold (Qc_sum l).
  rewrite <- (Qcplus_0_l 0). apply Qcplus_le_compat; [|exact IH].
  apply Qclt_le_weak. exact Hq.
Qed.

Lemma Qc_sum_pos (q : Qc) (l : list Qc) :
  Forall (fun q => 0 < q) (q :: l) → 0 < Qc_sum (q :: l).
Proof.
  intros H. apply Forall_cons in H as [Hq Hl].
  cbn [Qc_sum foldr]. fold (Qc_sum l).
  apply Qclt_le_trans with (q + 0).
  - rewrite Qcplus_0_r. exact Hq.
  - apply Qcplus_le_compat; [apply Qcle_refl | apply Qc_sum_nonneg; exact Hl].
Qed.

Lemma ledger_after_positive (inp : inputs) (l : list Transaction) :
  Forall (fun t => 0 < _amount t) l →
  Forall (fun t => 0 < _amount t) (ledger_after inp l).
Proof.
  intros Hl. unfold ledger_after. destruct (button_Add inp); [|exact Hl].
  destruct (decide (number_input inp ≤ 0)) as [|Hgt]; [exact Hl|].
  apply Forall_app. split; [exact Hl|].
  constructor; [|constructor]. apply Qcnot_le_lt. exact Hgt.
Qed.

(** X12: a pie chart is on the page of a run exactly when the ledger the
    run leaves holds an Expense transaction; when the amounts stored before
    the run are positive, the chart has a wedge for exactly the categories
    of the Expense transactions and every wedge is positive. *)
Theorem pie_chart_wedges (fmt : Qc → string) (inp : inputs)
    (ss : session_state) :
  let w := (run fmt inp ss).2 in
  let l' := ledger (state w) in
  ((∃ wedges, pyplot (pie wedges) ∈ page w)
   ↔ ∃ t, t ∈ l' ∧ get_type t = "Expense")
  ∧ (ledger_positive ss →
     ∀ wedges, pyplot (pie wedges) ∈ page w →
       ∀ c, (is_Some (wedges !! c)
             ↔ ∃ t, t ∈ l' ∧ get_type t = "Expense" ∧ _category t = c)
            ∧ ∀ v, wedges !! c = Some v → 0 < v).
Proof.
  rewrite run_result. cbn [snd state page]. rewrite ledger_insert.
  set (l' := ledger_after inp (ledger ss)). cbv zeta.
  assert (Hpie : ∀ wedges, pyplot (pie wedges) ∈ run_page fmt inp l' ↔
            filter (fun t => get_type t = "Expense") l' ≠ []
            ∧ wedges = fold_left (group_step row_category row_amount)
                        (to_row <$> filter (fun t => get_type t = "Expense") l') ∅).
  { intros wedges. rewrite elem_of_run_page, elem_of_form_message,
      elem_of_dashboard_page, !elem_of_cons, elem_of_nil. unfold warning. split.
    - intros [H|[H|[H|[H|H]]]]; try discriminate H.
      + destruct H as [_ [[_ H]|[_ H]]]; discriminate H.
      + destruct H as [_ H]; discriminate H.
      + destruct H as [_ [H|[[_ H]|[Hne H]]]]; try discriminate H.
        * repeat (destruct H as [H|H]; [discriminate H|]). destruct H.
        * split; [exact Hne|]. injection H as ->. reflexivity.
    - intros [Hne ->]. do 4 right. split.
      + intros Hl'. apply Hne. rewrite Hl'. reflexivity.
      + right. right. split; [exact Hne | reflexivity]. }
  split.
  - split.
    + intros (wedges & H). apply Hpie in H as [Hne _].
      destruct (filter (fun t => get_type t = "Expense") l') as [|t ts] eqn:E;
        [congruence|].
      assert (Ht : t ∈ filter (fun t => get_type t = "Expense") l')
        by (rewrite E; left).
      apply list_elem_of_filter in Ht as [Hty Hin].
      exists t. split; assumption.
    + intros (t & Hin & Hty). eexists. apply Hpie. split; [|reflexivity].
      intros E.
      assert (Ht : t ∈ filter (fun t => get_type t = "Expense") l')
        by (apply list_elem_of_filter; split; assumption).
      rewrite E in Ht. apply elem_of_nil in Ht. exact Ht.
  - intros Hpos wedges H c. apply Hpie in H as [_ ->].
    rewrite category_lookup.
    assert (Hl' : Forall (fun t => 0 < _amount t) l')
      by (apply ledger_after_positive; exact Hpos).
    assert (Hexp : Forall (fun q => 0 < q) (_amount <$> expenses_in c l')).
    { apply Forall_fmap. unfold expenses_in.
      apply Forall_forall. intros t Ht.
      apply list_elem_of_filter in Ht as [_ Ht].
      rewrite Forall_forall in Hl'. apply Hl'. exact Ht. }
    split.
    + split.
      * intros Hsome. destruct (expenses_in c l') as [|t ts] eqn:E;
          [destruct Hsome as [? Hs]; discriminate Hs|].
        exists t.
        assert (Ht : t ∈ expenses_in c l') by (rewrite E; left).
        unfold expenses_in in Ht.
        apply list_elem_of_filter in Ht as [[Hty Hc] Hin]. auto.
      * intros (t & Hin & Hty & Hc).
        assert (Ht : t ∈ expenses_in c l').
        { unfold expenses_in. apply list_elem_of_filter. auto. }
        destruct (expenses_in c l') as [|t' ts];
          [apply elem_of_nil in Ht; destruct Ht | eexists; reflexivity].
    + intros v Hv. destruct (expenses_in c l') as [|t ts]; [discriminate Hv|].
      injection Hv as <-. rewrite fmap_cons in *. apply Qc_sum_pos. exact Hexp.
Qed.

Lemma pie_chart_wedges_witness :
  let inp := mkInputs (Date 2024 1 1) "Income" "Salary" 0 false
                      (DateTime (Date 2024 1 31) 18 5) in
  let ss : session_state := {[ "data" := scenario ]} in
  ledger_positive ss
  ∧ ∀ wedges, pyplot (pie wedges) ∈ page (run fraction inp ss).2 →
      ∀ v, wedges !! "Rent" = Some v → 0 < v.
Proof.
  intros inp ss.
  assert (Hpos : ledger_positive ss).
  { unfold ledger_positive, ss, ledger. rewrite lookup_singleton_eq.
    repeat constructor. }
  split; [exact Hpos|]. intros wedges H.
  exact (proj2 (proj2 (pie_chart_wedges fraction inp ss) Hpos wedges H "Rent")).
Defined.

(** ** Algebra of the totals *)


(** ** Figures of a reachable session *)





(** * Properties that do not depend on exact arithmetic *)

Section NumericFacts.
Variable num : Type.
Variable le0 : num → bool.
Variable sub : num → num → num.
Variable Series_sum : list num → num.
Variable group_sum : list num → num.

Local Abbreviation Txn := (Numeric.Transaction num).
Local Abbreviation NRow := (Numeric.Row num).

Lemma numeric_select_series_eq (field : NRow → string) (value : string)
    (rs : list NRow) :
  Numeric.select (series_eq (field <$> rs) value) rs
  = filter (fun r => field r = value) rs.
Proof.
  unfold series_eq.
  induction rs as [|r rs IH]; [reflexivity|].
  rewrite !fmap_cons, filter_cons. cbn [Numeric.select]. rewrite IH.
  destruct (decide (field r = value)) as [E|E].
  - rewrite bool_decide_eq_true_2 by exact E. reflexivity.
  - rewrite bool_decide_eq_false_2 by exact E. reflexivity.
Qed.

Lemma numeric_filter_to_row (P : NRow → Prop) `{∀ r, Decision (P r)}
    (data : list Txn) :
  filter P (Numeric.to_row <$> data)
  = Numeric.to_row <$> filter (fun t => P (Numeric.to_row t)) data.
Proof.
  induction data as [|t data IH]; [reflexivity|].
  rewrite fmap_cons, !filter_cons, IH.
  destruct (decide (P (Numeric.to_row t))); reflexivity.
Qed.

Lemma numeric_frame_of_cons (t : Txn) (data : list Txn) :
  Numeric.frame_of (t :: data) = Numeric.table (t :: data).
Proof. reflexivity. Qed.

Lemma numeric_amount_sum_table (data : list Txn) (label : string) :
  Numeric.amount_sum_of_type Series_sum (Numeric.table data) label
  = ok (Series_sum (Numeric.amounts_of label data)).
Proof.
  unfold Numeric.amount_sum_of_type, Numeric.getitem, Numeric.getitem_mask,
    Numeric.table; simpl.
  unfold ok, mret, result_ret. do 2 f_equal.
  rewrite numeric_select_series_eq. unfold Numeric.amounts_of.
  rewrite (numeric_filter_to_row (fun r => Numeric.row_t_type r = label)).
  rewrite <- list_fmap_compose. reflexivity.
Qed.

Lemma numeric_totals_table (data : list Txn) :
  let income := Series_sum (Numeric.amounts_of "Income" data) in
  let expense := Series_sum (Numeric.amounts_of "Expense" data) in
  Numeric.totals sub Series_sum (Numeric.table data)
    = ok (income, expense, sub income expense)
  ∧ Numeric.page_totals sub Series_sum (Numeric.table data)
    = ok (income, expense, sub income expense).
Proof.
  unfold Numeric.totals, Numeric.page_totals.
  rewrite !numeric_amount_sum_table. split; reflexivity.
Qed.

(** C4: whatever the numbers and their arithmetic, over the frame of a
    ledger that holds a transaction (and over the four-column table of any
    sequence of transactions) the report generator and the page compute, as
    total income, the library sum of the amounts of the transactions
    labelled ["Income"], in ledger order; as total expense, that of the
    transactions labelled ["Expense"]; and as balance the program's
    difference of these two computed figures. *)
Theorem balance_is_income_minus_expense (t : Txn) (data : list Txn) :
  let income l := Series_sum (Numeric.amounts_of "Income" l) in
  let expense l := Series_sum (Numeric.amounts_of "Expense" l) in
  Numeric.totals sub Series_sum (Numeric.frame_of (t :: data))
    = ok (income (t :: data), expense (t :: data),
          sub (income (t :: data)) (expense (t :: data)))
  ∧ Numeric.page_totals sub Series_sum (Numeric.frame_of (t :: data))
    = ok (income (t :: data), expense (t :: data),
          sub (income (t :: data)) (expense (t :: data)))
  ∧ Numeric.totals sub Series_sum (Numeric.table data)
    = ok (income data, expense data, sub (income data) (expense data))
  ∧ Numeric.page_totals sub Series_sum (Numeric.table data)
    = ok (income data, expense data, sub (income data) (expense data)).
Proof.
  intros income expense. rewrite numeric_frame_of_cons.
  destruct (numeric_totals_table (t :: data)) as [H1 H2].
  destruct (numeric_totals_table data) as [H3 H4].
  repeat split; assumption.
Qed.

Lemma numeric_expense_rows_table (data : list Txn) :
  Numeric.expense_rows (Numeric.table data)
  = ok (Numeric.table (filter (fun t => Numeric.get_type t = "Expense") data)).
Proof.
  unfold Numeric.expense_rows, Numeric.getitem, Numeric.getitem_mask,
    Numeric.table; simpl.
  unfold ok, mret, result_ret. do 2 f_equal.
  rewrite numeric_select_series_eq.
  rewrite (numeric_filter_to_row (fun r => Numeric.row_t_type r = "Expense")).
  reflexivity.
Qed.

Lemma group_rows_lookup (by_field : NRow → string) (field : NRow → num)
    (rs : list NRow) (g : gmap string (list num)) (c : string) :
  fold_left (fun (g : gmap string (list num)) r =>
               <[by_field r := default [] (g !! by_field r) ++ [field r]]> g)
            rs g !! c
  = match filter (fun r => by_field r = c) rs with
    | [] => g !! c
    | _ :: _ => Some (default [] (g !! c)
                      ++ (field <$> filter (fun r => by_field r = c) rs))
    end.
Proof.
  revert g. induction rs as [|r rs IH]; intros g; [reflexivity|].
  cbn [fold_left]. rewrite IH, filter_cons.
  destruct (decide (by_field r = c)) as [->|Hne].
  - rewrite lookup_insert_eq. cbn [default]. unfold id.
    destruct (filter _ rs) as [|r' rs'].
    + reflexivity.
    + rewrite <- app_assoc. reflexivity.
  - rewrite lookup_insert_ne by exact Hne. reflexivity.
Qed.

Lemma numeric_category_lookup (data : list Txn) (c : string) :
  (group_sum <$> Numeric.group_rows Numeric.row_category Numeric.row_amount
     (Numeric.to_row <$> filter (fun t => Numeric.get_type t = "Expense") data))
    !! c
  = match Numeric.expense_amounts_in c data with
    | [] => None
    | _ :: _ => Some (group_sum (Numeric.expense_amounts_in c data))
    end.
Proof.
  rewrite lookup_fmap. unfold Numeric.group_rows.
  rewrite group_rows_lookup, lookup_empty.
  assert (Hrows :
    Numeric.row_amount <$>
      filter (fun r => Numeric.row_category r = c)
        (Numeric.to_row <$> filter (fun t => Numeric.get_type t = "Expense") data)
    = Numeric.expense_amounts_in c data).
  { unfold Numeric.expense_amounts_in.
    induction data as [|t data IH]; [reflexivity|].
    rewrite !filter_cons.
    destruct (decide (Numeric.get_type t = "Expense")) as [Ht|Ht].
    - rewrite fmap_cons, filter_cons. cbn [Numeric.to_row Numeric.row_category].
      destruct (decide (Numeric._category t = c)) as [Hc|Hc].
      + rewrite decide_True by (split; assumption).
        rewrite !fmap_cons, IH. reflexivity.
      + rewrite decide_False by (intros [_ ?]; contradiction). exact IH.
    - rewrite decide_False by (intros [? _]; contradiction). exact IH. }
  rewrite <- Hrows.
  destruct (filter (fun r => Numeric.row_category r = c) _) as [|r rs];
    reflexivity.
Qed.

(** Exact addition: the sum of the group sums is the sum of the column. *)
Section ExactAddition.
Variable add : num → num → num.
Variable zero : num.
Hypothesis add_assoc : ∀ x y z, add x (add y z) = add (add x y) z.
Hypothesis add_comm : ∀ x y, add x y = add y x.
Hypothesis add_zero : ∀ x, add zero x = x.

Lemma add_swap (x y z : num) : add x (add y z) = add y (add x z).
Proof. rewrite !add_assoc, (add_comm x y). reflexivity. Qed.

Lemma foldr_add_snoc (l : list num) (a : num) :
  foldr add zero (l ++ [a]) = add (foldr add zero l) a.
Proof.
  induction l as [|x l IH]; cbn [app foldr].
  - rewrite add_zero, add_comm, add_zero. reflexivity.
  - rewrite IH, add_assoc. reflexivity.
Qed.

Lemma exact_values_insert_fresh (m : gmap string num) (k : string) (v : num) :
  m !! k = None →
  map_fold (fun _ v acc => add v acc) zero (<[k := v]> m)
  = add v (map_fold (fun _ v acc => add v acc) zero m).
Proof.
  intros Hk. apply (map_fold_insert_L (fun _ v acc => add v acc)); [|exact Hk].
  intros j1 j2 z1 z2 y _ _ _. apply add_swap.
Qed.

Lemma exact_values_group_step (g : gmap string (list num)) (k : string)
    (a : num) :
  map_fold (fun _ v acc => add v acc) zero
    (foldr add zero <$> <[k := default [] (g !! k) ++ [a]]> g)
  = add (map_fold (fun _ v acc => add v acc) zero (foldr add zero <$> g)) a.
Proof.
  rewrite fmap_insert, foldr_add_snoc.
  destruct (g !! k) as [l|] eqn:E; cbn [default]; unfold id.
  - assert (Hk : (foldr add zero <$> g) !! k = Some (foldr add zero l))
      by (rewrite lookup_fmap, E; reflexivity).
    rewrite <- insert_delete_eq.
    rewrite exact_values_insert_fresh by apply lookup_delete_eq.
    rewrite (map_fold_delete_L (fun _ v acc => add v acc) zero k
               (foldr add zero l) (foldr add zero <$> g));
      [| intros j1 j2 z1 z2 y _ _ _; apply add_swap | exact Hk].
    rewrite <- !add_assoc. f_equal. apply add_comm.
  - assert (Hk : (foldr add zero <$> g) !! k = None)
      by (rewrite lookup_fmap, E; reflexivity).
    rewrite exact_values_insert_fresh by exact Hk.
    cbn [foldr]. rewrite add_zero. apply add_comm.
Qed.

Lemma exact_values_group_rows (by_field : NRow → string) (field : NRow → num)
    (rs : list NRow) (g : gmap string (list num)) :
  map_fold (fun _ v acc => add v acc) zero
    (foldr add zero <$>
       fold_left (fun (g : gmap string (list num)) r =>
                    <[by_field r := default [] (g !! by_field r) ++ [field r]]> g)
                 rs g)
  = add (map_fold (fun _ v acc => add v acc) zero (foldr add zero <$> g))
        (foldr add zero (field <$> rs)).
Proof.
  revert g. induction rs as [|r rs IH]; intros g.
  - cbn. rewrite add_comm, add_zero. reflexivity.
  - cbn [fold_left]. rewrite IH, exact_values_group_step, fmap_cons.
    cbn [foldr]. rewrite add_assoc. reflexivity.
Qed.

End ExactAddition.

(** C5, amended: whatever the numbers, over the frame of a ledger that
    holds a transaction the grouping drawn as the pie chart has an entry
    for a category exactly when some Expense transaction carries it, and
    the entry is the library sum of the amounts of the Expense transactions
    of that category, in ledger order; a category that only Income
    transactions carry has no entry.  When the addition is associative and
    commutative with a neutral zero and both library sums add up from zero,
    the values of the mapping add up to the total expense. *)
Theorem expense_by_category_sums (data : list Txn) :
  data ≠ [] →
  ∃ exp_df m,
    Numeric.expense_rows (Numeric.frame_of data) = ok exp_df
    ∧ Numeric.category_sums group_sum exp_df = ok m
    ∧ (∀ c, m !! c = match Numeric.expense_amounts_in c data with
                     | [] => None
                     | _ :: _ =>
                         Some (group_sum (Numeric.expense_amounts_in c data))
                     end)
    ∧ (∀ c, (∀ t, t ∈ data → Numeric._category t = c →
                  Numeric.get_type t = "Income") →
            m !! c = None)
    ∧ (∀ (add : num → num → num) (zero : num),
         (∀ x y z, add x (add y z) = add (add x y) z) →
         (∀ x y, add x y = add y x) →
         (∀ x, add zero x = x) →
         (∀ l, Series_sum l = foldr add zero l) →
         (∀ l, group_sum l = foldr add zero l) →
         map_fold (fun _ v acc => add v acc) zero m
         = Series_sum (Numeric.amounts_of "Expense" data)).
Proof.
  intros Hne. destruct data as [|t0 data0]; [congruence|].
  rewrite numeric_frame_of_cons. set (data := t0 :: data0).
  set (exps := filter (fun t => Numeric.get_type t = "Expense") data).
  set (m := group_sum <$> Numeric.group_rows Numeric.row_category
                            Numeric.row_amount (Numeric.to_row <$> exps)).
  exists (Numeric.table exps), m.
  split; [apply numeric_expense_rows_table|].
  split; [reflexivity|]. split; [apply numeric_category_lookup|]. split.
  - intros c Hc. unfold m, exps. rewrite numeric_category_lookup.
    unfold Numeric.expense_amounts_in.
    destruct (filter (fun t => Numeric.get_type t = "Expense"
                               ∧ Numeric._category t = c) data)
      as [|t ts] eqn:E; [reflexivity|].
    assert (Ht : t ∈ filter (fun t => Numeric.get_type t = "Expense"
                                      ∧ Numeric._category t = c) data)
      by (rewrite E; left).
    apply list_elem_of_filter in Ht as [[Hty Hcat] Hin].
    specialize (Hc t Hin Hcat). rewrite Hc in Hty. discriminate Hty.
  - intros add zero Hassoc Hcomm Hzero Hseries Hgroup.
    rewrite Hseries. unfold m.
    rewrite (map_fmap_ext group_sum (foldr add zero)) by (intros; apply Hgroup).
    unfold Numeric.group_rows.
    rewrite (exact_values_group_rows add zero Hassoc Hcomm Hzero).
    rewrite fmap_empty, map_fold_empty, Hzero.
    unfold Numeric.amounts_of. rewrite <- list_fmap_compose. reflexivity.
Qed.

End NumericFacts.

Lemma expense_by_category_sums_witness :
  let data : list (Numeric.Transaction Qc) :=
    [ Numeric.mkTransaction IncomeClass (Date 2024 1 1) "Salary" (Qc_of_Z 50000);
      Numeric.mkTransaction ExpenseClass (Date 2024 1 10) "Rent" (Qc_of_Z 15000);
      Numeric.mkTransaction ExpenseClass (Date 2024 1 12) "Food" (Qc_of_Z 3000) ] in
  ∃ exp_df m,
    Numeric.expense_rows (Numeric.frame_of data) = ok exp_df
    ∧ Numeric.category_sums (foldr Qcplus 0) exp_df = ok m
    ∧ map_fold (fun _ v acc => v + acc) 0 m
      = foldr Qcplus 0 (Numeric.amounts_of "Expense" data).
Proof.
  intros data.
  destruct (expense_by_category_sums Qc (foldr Qcplus 0) (foldr Qcplus 0) data)
    as (exp_df & m & Hrows & Hsums & _ & _ & Hexact); [discriminate|].
  exists exp_df, m. split; [exact Hrows|]. split; [exact Hsums|].
  apply (Hexact Qcplus 0).
  - intros x y z. apply Qcplus_assoc.
  - intros x y. apply Qcplus_comm.
  - intros x. apply Qcplus_0_l.
  - reflexivity.
  - reflexivity.
Defined.

(** ** Examples with binary64 amounts *)

#[local] Set Warnings "-inexact-float".

(** The figures for incomes 0.1 and 0.2 and an expense 0.3: the income adds
    up to 0.30000000000000004 and the balance is that figure minus 0.3. *)
Example float_totals :
  let data : list (Numeric.Transaction float) :=
    [ Numeric.mkTransaction IncomeClass (Date 2024 1 1) "Salary" 0.1%float;
      Numeric.mkTransaction IncomeClass (Date 2024 1 2) "Others" 0.2%float;
      Numeric.mkTransaction ExpenseClass (Date 2024 1 3) "Food" 0.3%float ] in
  Numeric.totals Float64.sub Float64.Series_sum (Numeric.frame_of data)
  = ok (0.30000000000000004%float, 0.3%float,
        Float64.sub 0.30000000000000004%float 0.3%float)
  ∧ Float64.sub 0.30000000000000004%float 0.3%float
    = 0x1p-54%float.
Proof. intros data. split; vm_compute; reflexivity. Qed.

(** C5, as claimed, fails: with the float amounts 0.3 (Food), 0.1 (Rent)
    and 0.2 (Food) entered as expenses, the groups sum to 0.5 and 0.1, which
    add up to 0.6, while the total expense is 0.6000000000000001; the two
    do not compare equal. *)
Lemma float_category_sums_differ :
  let data : list (Numeric.Transaction float) :=
    [ Numeric.mkTransaction ExpenseClass (Date 2024 1 10) "Food" 0.3%float;
      Numeric.mkTransaction ExpenseClass (Date 2024 1 11) "Rent" 0.1%float;
      Numeric.mkTransaction ExpenseClass (Date 2024 1 12) "Food" 0.2%float ] in
  let m : gmap string float := {[ "Food" := 0.5%float; "Rent" := 0.1%float ]} in
  let expense := 0.6000000000000001%float in
  Numeric.expense_rows (Numeric.frame_of data) = ok (Numeric.table data)
  ∧ Numeric.category_sums Float64.group_sum (Numeric.table data) = ok m
  ∧ Numeric.totals Float64.sub Float64.Series_sum (Numeric.frame_of data)
    = ok (0%float, expense, (- expense)%float)
  ∧ Float64.values_sum m = 0.6%float
  ∧ Float64.eqb (Float64.values_sum m) expense = false.
Proof.
  intros data m expense.
  split; [vm_compute; reflexivity|].
  split; [vm_compute; reflexivity|].
  split; [vm_compute; reflexivity|].
  split; vm_compute; reflexivity.
Qed.

(** C9: at a transaction whose amount is the float NaN the guard of
    [add_transaction] does not fire, since [nan <= 0] is false: the call
    succeeds and stores the transaction, whose amount is not greater than
    zero. *)
Theorem nan_passes_the_guard :
  let t := Numeric.mkTransaction IncomeClass (Date 2024 1 1) "Salary"
             PrimFloat.nan in
  let ss : gmap string (list (Numeric.Transaction float)) :=
    Numeric.__init__ ∅ in
  Numeric.ledger ss = []
  ∧ Numeric.add_transaction Float64.le0 t ss = (ok (), {[ "data" := [t] ]})
  ∧ Numeric.ledger (Numeric.add_transaction Float64.le0 t ss).2 = [t]
  ∧ Float64.le0 (Numeric._amount t) = false
  ∧ Float64.gt0 (Numeric._amount t) = false.
Proof. intros t ss. repeat split; vm_compute; reflexivity. Qed.

(** ** The guard of [add_transaction], whatever the numbers *)

Section Guard.
Variable num : Type.
Variable le0 : num → bool.

(** The guard keeps every amount with [amount <= 0] out of the ledger:
    this holds of a fresh session and is kept by [__init__] and by
    [add_transaction] at every transaction. *)
Lemma guard_invariant :
  Numeric.passed_guard le0 (∅ : gmap string (list (Numeric.Transaction num)))
  ∧ (∀ ss, Numeric.passed_guard le0 ss →
           Numeric.passed_guard le0 (Numeric.__init__ ss))
  ∧ (∀ t ss, Numeric.passed_guard le0 ss →
             Numeric.passed_guard le0 (Numeric.add_transaction le0 t ss).2).
Proof.
  split; [constructor|]. split.
  - intros ss Hss. unfold Numeric.passed_guard, Numeric.ledger, Numeric.__init__ in *.
    destruct (ss !! "data") as [l|] eqn:E; [rewrite E; exact Hss|].
    rewrite lookup_insert_eq. constructor.
  - intros t ss Hss.
    unfold Numeric.passed_guard, Numeric.ledger, Numeric.add_transaction in *.
    destruct (le0 (Numeric._amount t)) eqn:Ht; [exact Hss|].
    destruct (ss !! "data") as [l|] eqn:E; cbn [snd]; [|rewrite E; exact Hss].
    rewrite lookup_insert_eq. cbn [default] in *.
    apply Forall_app. split; [exact Hss|]. constructor; [exact Ht | constructor].
Qed.

End Guard.

(** ** Appending, whatever the numbers *)

Section Append.
Variable num : Type.
Variable sub : num → num → num.
Variable Series_sum : list num → num.

(** X14: appending one transaction to a ledger changes only the total of
    its own kind: after an Income is appended the total expense is the
    figure computed before and the total income is the library sum of the
    earlier Income amounts followed by the new amount; symmetrically for an
    Expense; the balance is the difference of the two new figures. *)
Theorem totals_after_append (l : list (Numeric.Transaction num))
    (t : Numeric.Transaction num) :
  let income := Numeric.amounts_of "Income" l in
  let expense := Numeric.amounts_of "Expense" l in
  Numeric.totals sub Series_sum (Numeric.table l)
    = ok (Series_sum income, Series_sum expense,
          sub (Series_sum income) (Series_sum expense))
  ∧ Numeric.totals sub Series_sum (Numeric.frame_of (l ++ [t]))
    = ok (match Numeric.__class__ t with
          | IncomeClass =>
              (Series_sum (income ++ [Numeric._amount t]), Series_sum expense,
               sub (Series_sum (income ++ [Numeric._amount t]))
                   (Series_sum expense))
          | ExpenseClass =>
              (Series_sum income, Series_sum (expense ++ [Numeric._amount t]),
               sub (Series_sum income)
                   (Series_sum (expense ++ [Numeric._amount t])))
          end).
Proof.
  intros income expense.
  split; [apply (proj1 (numeric_totals_table num sub Series_sum l))|].
  assert (Hframe : Numeric.frame_of (l ++ [t]) = Numeric.table (l ++ [t])).
  { destruct l; reflexivity. }
  rewrite Hframe.
  rewrite (proj1 (numeric_totals_table num sub Series_sum (l ++ [t]))).
  unfold Numeric.amounts_of, income, expense, Numeric.amounts_of.
  rewrite !filter_app, !fmap_app.
  destruct t as [[] d c a]; cbn; rewrite ?app_nil_r; reflexivity.
Qed.

End Append.
